(** * Glance: bring-up scripts for a Raspberry-Pi-driven e-paper display

    A shallow embedding of the parts of the repository that its
    specification talks about, followed by their properties.

    Definitions:
    - [epaper_test]: the display driver class [EPD_13in3_Spectra6] of
      [epaper_test.py] and the script's [main];
    - [simple_test]: the pin constants and the four functions of
      [simple_test.py];
    - [display_diagnostic]: the pin constants and the reset sequence test
      of [display_diagnostic.py];
    - [fetch_flags]: the flag cache of [fetch_flags.py].

    Properties:
    - [epaper_test_spec]: pixel packing, command order, busy wait, test
      pattern and the data/command line;
    - the pin assignments of the three scripts;
    - [simple_test_spec], [display_diagnostic_spec],
      [reset_sequence_spec]: chip selects, the loop that watches the busy
      pin, and the reset pulse the scripts share;
    - [fetch_flags_spec]: cache decision, failure of a country, the
      rendered canvas, the metadata and the index.

    Hardware, network and files are modelled as explicit worlds: every
    GPIO, SPI and sleep call is appended to a trace, every flag request
    that goes out to a log, every file is kept under its location; inputs
    and what can fail outside the scripts come from an environment.
    Console output ([print]) is not part of the model. *)

From Stdlib Require Import ZArith List Lia Bool String Ascii.
From stdpp Require Import base option list strings gmap.
Import ListNotations.
Local Open Scope Z_scope.

(* ===================================================================== *)
(** * epaper_test.py                                                      *)
(* ===================================================================== *)

Module epaper_test.

(** ** Constants (lines 14-21) *)

Definition RST_PIN : Z := 17.
Definition DC_PIN : Z := 25.
Definition CS_PIN : Z := 8.
Definition BUSY_PIN : Z := 24.

Definition EPD_WIDTH : Z := 1600.
Definition EPD_HEIGHT : Z := 1200.

(** ** The hardware world *)

(** [GPIO.LOW] and [GPIO.HIGH]. *)
Inductive level := LOW | HIGH.

Inductive direction := IN | OUT.

(** One entry per call into [RPi.GPIO], [spidev] or [time.sleep]; sleeps
    are in milliseconds.  [SpiXfer2 b] is [spi.xfer2([b])] with the integer
    [b] exactly as the script passes it. *)
Inductive event :=
| GpioSetmode
| GpioSetwarnings (flag : bool)
| GpioCleanup
| GpioSetup (pin : Z) (d : direction)
| GpioOutput (pin : Z) (l : level)
| GpioInput (pin : Z) (l : level)
| SpiOpen
| SpiClose
| SpiXfer2 (data : Z)
| TimeSleep (ms : Z).

(** [trace] is chronological.  [now] is the wall clock in milliseconds,
    [reads] counts the calls of [GPIO.input], [naps] those of
    [time.sleep]. *)
Record world := World {
  trace : list event;
  now : Z;
  reads : nat;
  naps : nat
}.

Definition level_eq_dec (a b : level) : {a = b} + {a <> b}.
Proof. decide equality. Defined.

Definition level_eqb (a b : level) : bool :=
  if level_eq_dec a b then true else false.

(** Computations over the world; [None] is a loop that ran out of fuel. *)
Definition M (A : Type) : Type := world -> option (A * world).

Definition ret {A} (a : A) : M A := fun w => Some (a, w).

Definition bind {A B} (m : M A) (k : A -> M B) : M B :=
  fun w => match m w with
           | Some (a, w') => k a w'
           | None => None
           end.

Declare Scope epd_scope.
Delimit Scope epd_scope with epd.
Notation "x <- m ;; k" := (bind m (fun x => k))
  (at level 100, m at next level, right associativity) : epd_scope.
Notation "m ;; k" := (bind m (fun _ => k))
  (at level 100, right associativity) : epd_scope.
Local Open Scope epd_scope.

Definition emit (e : event) : M unit :=
  fun w => Some (tt, {| trace := trace w ++ [e]; now := now w;
                        reads := reads w; naps := naps w |}).

(** ** What the display sees *)

(** The panel samples the data/command line with every byte on the bus: a
    byte clocked while DC is low is a command, otherwise it is data. *)
Inductive message := Command (c : Z) | Data (d : Z).

(** The bytes of a trace as the panel reads them, [dc] being the level of
    the DC line when the trace starts. *)
Fixpoint bus_view (dc : level) (tr : list event) : list message :=
  match tr with
  | [] => []
  | GpioOutput pin l :: rest => bus_view (if pin =? DC_PIN then l else dc) rest
  | SpiXfer2 b :: rest =>
      match dc with LOW => Command b | HIGH => Data b end :: bus_view dc rest
  | _ :: rest => bus_view dc rest
  end.

Definition is_command (m : message) : bool :=
  match m with Command _ => true | Data _ => false end.

Definition code_of (m : message) : Z :=
  match m with Command c => c | Data d => d end.

(** The command bytes of a message stream, in order. *)
Definition commands (ms : list message) : list Z := map code_of (List.filter is_command ms).

(** Every SPI transfer comes right after a write to the DC pin; [armed]
    says that the event before the trace was such a write. *)
Fixpoint framed (armed : bool) (tr : list event) : bool :=
  match tr with
  | [] => true
  | SpiXfer2 _ :: rest => armed && framed false rest
  | GpioOutput pin _ :: rest => framed (pin =? DC_PIN) rest
  | _ :: rest => framed false rest
  end.

Definition dc_framed (tr : list event) : bool := framed false tr.

Definition is_xfer (e : event) : bool :=
  match e with SpiXfer2 _ => true | _ => false end.

(** Events that neither drive a pin nor use the bus. *)
Definition is_quiet (e : event) : bool :=
  match e with GpioInput _ _ | TimeSleep _ => true | _ => false end.

(** [m] run in [w] returns [a] in [w'], having appended [ev] to the trace. *)
Definition runs {A} (m : M A) (w : world) (a : A) (ev : list event) (w' : world) : Prop :=
  m w = Some (a, w') /\ trace w' = trace w ++ ev.

(** [ev] is DC-framed and the panel reads it as [ms] whatever the DC level
    was before. *)
Definition shape (ev : list event) (ms : list message) : Prop :=
  dc_framed ev = true /\ forall dc, bus_view dc ev = ms.

(** Wherever [m] starts it returns, and result and appended events
    satisfy [P]. *)
Definition always {A} (m : M A) (P : A -> list event -> Prop) : Prop :=
  forall w, exists a ev w', runs m w a ev w' /\ P a ev.

(** Wherever [m] starts it returns, and the panel reads [ms]. *)
Definition talks {A} (m : M A) (ms : list message) : Prop :=
  always m (fun _ ev => shape ev ms).

(** As [talks], with the result in [R]. *)
Definition says {A} (m : M A) (R : A -> Prop) (ms : list message) : Prop :=
  always m (fun a ev => R a /\ shape ev ms).

(** What [always] can say about a trace: each transfer in it has a write
    to the DC pin as its direct predecessor. *)
Definition dc_driven_before_each_transfer (ev : list event) : Prop :=
  forall pre b post, ev = pre ++ SpiXfer2 b :: post ->
    exists pre' l, pre = pre' ++ [GpioOutput DC_PIN l].

(** [ev] keeps the DC discipline and the panel reads it as [ms]. *)
Definition disciplined (ev : list event) (ms : list message) : Prop :=
  dc_driven_before_each_transfer ev /\ forall dc, bus_view dc ev = ms.

(** The world a script starts in. *)
Definition boot : world := {| trace := []; now := 0; reads := 0; naps := 0 |}.

(** A panel that is never busy, and sleeps that never overshoot. *)
Definition ready_pin : Z -> nat -> level := fun _ _ => LOW.
Definition no_lag : nat -> N := fun _ => 0%N.

(** A panel that is busy for the first three polls. *)
Definition slow_pin : Z -> nat -> level :=
  fun _ k => if (k <? 3)%nat then HIGH else LOW.

(** The environment of a run: [gpio_in pin k] is what the [k]-th call of
    [GPIO.input] returns when it reads [pin]; [lag k] is by how many
    milliseconds the [k]-th [time.sleep] overshoots (a sleep lasts at least
    as long as asked).  [fuel] bounds the iterations of the polling loop. *)
Class Environment := {
  gpio_in : Z -> nat -> level;
  lag : nat -> N;
  fuel : nat
}.

Definition ready_panel : Environment :=
  {| gpio_in := ready_pin; lag := no_lag; fuel := 451 |}.

Definition slow_panel : Environment :=
  {| gpio_in := slow_pin; lag := no_lag; fuel := 451 |}.

(** Events that neither open nor close the SPI device. *)
Definition keeps_bus (e : event) : bool :=
  match e with SpiOpen | SpiClose => false | _ => true end.

(** Wherever [m] starts it returns, and all it appends satisfies [p]. *)
Definition only {A} (p : event -> bool) (m : M A) : Prop :=
  always m (fun _ ev => forallb p ev = true).

(** A panel whose busy pin never goes low. *)
Definition stuck_pin : Z -> nat -> level := fun _ _ => HIGH.

Definition stuck_panel : Environment :=
  {| gpio_in := stuck_pin; lag := no_lag; fuel := 451 |}.

(** The number of data bytes in a message stream. *)
Definition data_count (ms : list message) : Z :=
  Z.of_nat (length (List.filter (fun m => negb (is_command m)) ms)).

(** The four two-bit fields of a byte, leftmost pixel first. *)
Definition unpack (b : Z) : list Z :=
  map (fun p => Z.land (Z.shiftr b (6 - p * 2)) 3) [0; 1; 2; 3].

(** [_reset] on the wire. *)
Definition reset_events : list event :=
  [GpioOutput RST_PIN HIGH; TimeSleep 200; GpioOutput RST_PIN LOW; TimeSleep 2;
   GpioOutput RST_PIN HIGH; TimeSleep 200].

(** The reset pulse on a pin: high for 200 ms, low for 2 ms, high for
    200 ms. *)
Definition reset_pulse (pin : Z) : list event :=
  [GpioOutput pin HIGH; TimeSleep 200; GpioOutput pin LOW; TimeSleep 2;
   GpioOutput pin HIGH; TimeSleep 200].

(** One poll of the busy pin that found it high, and the nap after it. *)
Definition busy_poll : list event := [GpioInput BUSY_PIN HIGH; TimeSleep 100].

(** What a wait puts on the trace: [k] polls that found the pin high and,
    if the wait returns [True], the poll that found it low. *)
Definition wait_events (k : nat) (idle : bool) : list event :=
  concat (repeat busy_poll k) ++ (if idle then [GpioInput BUSY_PIN LOW] else []).

(** The power-on command and the wait that follows it; [ok] says that
    the wait returned [True], and [rest] is what the run did then. *)
Definition power_on_events (k : nat) (ok : bool) (rest : list event) : list event :=
  [GpioOutput DC_PIN LOW; SpiXfer2 0x04] ++ wait_events k ok ++ rest.

Section Driver.

Context {panel : Environment}.

Definition GPIO_output (pin : Z) (l : level) : M unit := emit (GpioOutput pin l).

Definition GPIO_setup (pin : Z) (d : direction) : M unit := emit (GpioSetup pin d).

Definition GPIO_input (pin : Z) : M level :=
  fun w => let l := gpio_in pin (reads w) in
           Some (l, {| trace := trace w ++ [GpioInput pin l]; now := now w;
                       reads := S (reads w); naps := naps w |}).

Definition time_sleep (ms : Z) : M unit :=
  fun w => Some (tt, {| trace := trace w ++ [TimeSleep ms];
                        now := now w + ms + Z.of_N (lag (naps w));
                        reads := reads w; naps := S (naps w) |}).

Definition time_time : M Z := fun w => Some (now w, w).

(** [for i in range(start, start + count*step, step): body(i)] *)
Fixpoint for_range (count : nat) (i step : Z) (body : Z -> M unit) : M unit :=
  match count with
  | O => ret tt
  | S k => body i ;; for_range k (i + step) step body
  end.

(** The values [i, i + step, ...] that such a loop goes through. *)
Fixpoint arange (count : nat) (i step : Z) : list Z :=
  match count with
  | O => []
  | S k => i :: arange k (i + step) step
  end.

(** [range(n)] as a list. *)
Definition range (n : nat) : list Z := arange n 0 1.

(** [len(range(0, stop, step))] for a positive [step]. *)
Definition range_len (stop step : Z) : nat := Z.to_nat ((stop + step - 1) / step).

(** ** class EPD_13in3_Spectra6 *)

(** [__init__] (lines 24-28) *)
Definition __init__ : M unit := emit SpiOpen.

(** [_spi_transfer] (lines 30-32) *)
Definition _spi_transfer (data : Z) : M unit := emit (SpiXfer2 data).

(** [_send_command] (lines 34-38) *)
Definition _send_command (command : Z) : M unit :=
  GPIO_output DC_PIN LOW ;;
  _spi_transfer command.

(** [_send_data] (lines 40-43) *)
Definition _send_data (data : Z) : M unit :=
  GPIO_output DC_PIN HIGH ;;
  _spi_transfer data.

(** The [while] loop of [_wait_until_idle] (lines 50-57). *)
Fixpoint wait_loop (n : nat) (start_time timeout_ms : Z) : M bool :=
  match n with
  | O => fun _ => None
  | S n' =>
      busy <- GPIO_input BUSY_PIN ;;
      if level_eqb busy HIGH then
        time_sleep 100 ;;
        t <- time_time ;;
        if timeout_ms <? t - start_time then ret false
        else wait_loop n' start_time timeout_ms
      else ret true
  end.

(** [_wait_until_idle] (lines 45-57); the timeout is in milliseconds. *)
Definition _wait_until_idle (timeout_ms : Z) : M bool :=
  start_time <- time_time ;;
  wait_loop fuel start_time timeout_ms.

(** [_reset] (lines 107-114) *)
Definition _reset : M unit :=
  GPIO_output RST_PIN HIGH ;;
  time_sleep 200 ;;
  GPIO_output RST_PIN LOW ;;
  time_sleep 2 ;;
  GPIO_output RST_PIN HIGH ;;
  time_sleep 200.

(** [init] (lines 59-105) *)
Definition init : M bool :=
  emit GpioSetmode ;;
  emit (GpioSetwarnings false) ;;
  emit GpioCleanup ;;
  GPIO_setup RST_PIN OUT ;;
  GPIO_setup DC_PIN OUT ;;
  GPIO_setup CS_PIN OUT ;;
  GPIO_setup BUSY_PIN IN ;;
  GPIO_output CS_PIN HIGH ;;
  GPIO_output DC_PIN LOW ;;
  GPIO_output RST_PIN HIGH ;;
  _reset ;;
  _send_command 0x04 ;;
  idle <- _wait_until_idle 10000 ;;
  if negb idle then ret false
  else
    _send_command 0x00 ;;
    _send_data 0x2f ;;
    _send_data 0x00 ;;
    _send_command 0x61 ;;
    _send_data (Z.shiftr EPD_WIDTH 8) ;;
    _send_data (Z.land EPD_WIDTH 0xff) ;;
    _send_data (Z.shiftr EPD_HEIGHT 8) ;;
    _send_data (Z.land EPD_HEIGHT 0xff) ;;
    ret true.

(** [_refresh] (lines 209-220); a timeout only prints a warning. *)
Definition _refresh : M unit :=
  _send_command 0x12 ;;
  time_sleep 100 ;;
  _ <- _wait_until_idle 45000 ;;
  ret tt.

(** [clear] (lines 116-138) *)
Definition total_pixels : Z := EPD_WIDTH * EPD_HEIGHT / 4.

Definition clear : M unit :=
  _send_command 0x10 ;;
  for_range (range_len total_pixels 1) 0 1 (fun i => _send_data 0x11) ;;
  _send_command 0x13 ;;
  for_range (range_len total_pixels 1) 0 1 (fun i => _send_data 0x11) ;;
  _refresh.

(** [draw_test_pattern] (lines 140-207) *)
Definition rect_height : Z := EPD_HEIGHT / 6.
Definition pixels_per_byte : Z := 4.

(** The [if]/[elif] chain of lines 157-168. *)
Definition color_first (y : Z) : Z :=
  if y <? rect_height then 0x0
  else if y <? rect_height * 2 then 0x1
  else if y <? rect_height * 3 then 0x2
  else if y <? rect_height * 4 then 0x3
  else if y <? rect_height * 5 then 0x4
  else 0x5.

(** The [if]/[elif] chain of lines 186-197. *)
Definition color_second (y : Z) : Z :=
  if y <? rect_height then 0x0
  else if y <? rect_height * 2 then 0x1
  else if y <? rect_height * 3 then 0x2
  else if y <? rect_height * 4 then 0x3
  else if y <? rect_height * 5 then 0x4
  else 0x5.

(** The inner loop over [p]: [pixel_data |= (color << (6 - p * 2))],
    starting from [pixel_data = 0]. *)
Definition pack (color : Z -> Z) (y : Z) : Z :=
  fold_left (fun pixel_data p => Z.lor pixel_data (Z.shiftl (color y) (6 - p * 2)))
            (range (Z.to_nat pixels_per_byte)) 0.

Definition pixel_data_first (y : Z) : Z := pack color_first y.
Definition pixel_data_second (y : Z) : Z := pack color_second y.

Definition draw_test_pattern : M unit :=
  _send_command 0x10 ;;
  for_range (range_len EPD_HEIGHT 1) 0 1 (fun y =>
    for_range (range_len EPD_WIDTH pixels_per_byte) 0 pixels_per_byte (fun x =>
      _send_data (pixel_data_first y))) ;;
  _send_command 0x13 ;;
  for_range (range_len EPD_HEIGHT 1) 0 1 (fun y =>
    for_range (range_len EPD_WIDTH pixels_per_byte) 0 pixels_per_byte (fun x =>
      _send_data (pixel_data_second y))) ;;
  _refresh.

(** [sleep] (lines 222-229); the result of the wait is dropped. *)
Definition sleep : M unit :=
  _send_command 0x02 ;;
  _ <- _wait_until_idle 5000 ;;
  _send_command 0x07 ;;
  _send_data 0xA5.

(** [cleanup] (lines 231-240) *)
Definition cleanup : M unit :=
  emit SpiClose ;;
  emit GpioCleanup.

(** [main] (lines 242-307), on the path without Python exceptions. *)
Definition main : M bool :=
  __init__ ;;
  ok <- init ;;
  if negb ok then
    cleanup ;; ret false
  else
    time_sleep 2000 ;;
    clear ;;
    time_sleep 10000 ;;
    draw_test_pattern ;;
    sleep ;;
    cleanup ;;
    ret true.

(** ** The byte streams of the methods, as the panel reads them *)

Definition init_config_events : list event :=
  [GpioSetmode; GpioSetwarnings false; GpioCleanup;
   GpioSetup RST_PIN OUT; GpioSetup DC_PIN OUT; GpioSetup CS_PIN OUT;
   GpioSetup BUSY_PIN IN;
   GpioOutput CS_PIN HIGH; GpioOutput DC_PIN LOW; GpioOutput RST_PIN HIGH].

Definition panel_messages : list message :=
  [Command 0x00; Data 0x2f; Data 0x00;
   Command 0x61; Data (Z.shiftr EPD_WIDTH 8); Data (Z.land EPD_WIDTH 0xff);
   Data (Z.shiftr EPD_HEIGHT 8); Data (Z.land EPD_HEIGHT 0xff)].

Definition init_messages (ok : bool) : list message :=
  Command 0x04 :: (if ok then panel_messages else []).

Definition white_plane : list message :=
  flat_map (fun i => [Data 0x11]) (arange (range_len total_pixels 1) 0 1).

Definition clear_messages : list message :=
  [Command 0x10] ++ white_plane ++ [Command 0x13] ++ white_plane ++ [Command 0x12].

(** One plane of the test pattern: row after row, a byte for every four
    pixels of the row. *)
Definition pattern_plane (pixel_data : Z -> Z) : list message :=
  flat_map (fun y =>
    flat_map (fun x => [Data (pixel_data y)])
             (arange (range_len EPD_WIDTH pixels_per_byte) 0 pixels_per_byte))
    (arange (range_len EPD_HEIGHT 1) 0 1).

Definition draw_messages : list message :=
  [Command 0x10] ++ pattern_plane pixel_data_first ++
  [Command 0x13] ++ pattern_plane pixel_data_second ++ [Command 0x12].

Definition sleep_messages : list message :=
  [Command 0x02; Command 0x07; Data 0xA5].

Definition main_messages (ok : bool) : list message :=
  if ok then init_messages true ++ clear_messages ++ draw_messages ++ sleep_messages
  else init_messages false.

(** By how much the [count] sleeps from the [k]-th on overshoot together. *)
Fixpoint lag_sum (k count : nat) : Z :=
  match count with
  | O => 0
  | S c => Z.of_N (lag k) + lag_sum (S k) c
  end.

(** The busy pin reads low whenever it is read. *)
Definition pin_idle : Prop := forall k, gpio_in BUSY_PIN k = LOW.

(** The busy pin reads high whenever it is read. *)
Definition pin_stuck : Prop := forall k, gpio_in BUSY_PIN k = HIGH.

End Driver.

End epaper_test.

(* ===================================================================== *)
(** * simple_test.py and display_diagnostic.py                            *)
(* ===================================================================== *)

(** Pin definitions of [simple_test.py] (lines 13-17). *)
Module simple_test.

Definition RST_PIN : Z := 11.
Definition DC_PIN : Z := 22.
Definition CS_M_PIN : Z := 24.
Definition CS_S_PIN : Z := 26.
Definition BUSY_PIN : Z := 18.

(** ** The script

    It runs in the hardware world of [epaper_test]; as there, the calls
    into [RPi.GPIO] and [spidev] do not raise. *)

Import (notations) epaper_test.
Import epaper_test(level(..), direction(..), event(..), world(..), Environment(..), M, ret,
                   bind, emit, GPIO_output, GPIO_setup, GPIO_input, time_sleep).
Local Open Scope epd_scope.

(** The output lines as the script has set them: [Some l] while it
    drives the line at level [l], [None] when it does not, that is before
    the first write after [GPIO.setup] and after [GPIO.cleanup], which
    turns every channel back into an input. *)
Record lines := Lines {
  rst : option level;
  dc : option level;
  cs_m : option level;
  cs_s : option level
}.

Definition released : lines :=
  {| rst := None; dc := None; cs_m := None; cs_s := None |}.

Definition drive (pin : Z) (l : option level) (s : lines) : lines :=
  {| rst := if pin =? RST_PIN then l else rst s;
     dc := if pin =? DC_PIN then l else dc s;
     cs_m := if pin =? CS_M_PIN then l else cs_m s;
     cs_s := if pin =? CS_S_PIN then l else cs_s s |}.

(** What a call does to the lines. *)
Definition after_call (e : event) (s : lines) : lines :=
  match e with
  | GpioOutput pin l => drive pin (Some l) s
  | GpioSetup pin _ => drive pin None s
  | GpioCleanup => released
  | _ => s
  end.

(** The bytes clocked out on the bus, each with the lines as they are
    while it is sent: a controller takes the byte when its chip select is
    low, as a command when DC is low. *)
Fixpoint bus_bytes (s : lines) (tr : list event) : list (Z * lines) :=
  match tr with
  | [] => []
  | SpiXfer2 b :: rest => (b, s) :: bus_bytes s rest
  | e :: rest => bus_bytes (after_call e s) rest
  end.

(** The lines at the end of a trace. *)
Fixpoint lines_after (s : lines) (tr : list event) : lines :=
  match tr with
  | [] => s
  | e :: rest => lines_after (after_call e s) rest
  end.

Section Script.

Context {panel : Environment}.

(** [init_gpio] (lines 19-36) *)
Definition init_gpio : M unit :=
  emit (GpioSetwarnings false) ;;
  emit GpioSetmode ;;
  GPIO_setup RST_PIN OUT ;;
  GPIO_setup DC_PIN OUT ;;
  GPIO_setup CS_M_PIN OUT ;;
  GPIO_setup CS_S_PIN OUT ;;
  GPIO_setup BUSY_PIN IN ;;
  GPIO_output RST_PIN HIGH ;;
  GPIO_output DC_PIN LOW ;;
  GPIO_output CS_M_PIN HIGH ;;
  GPIO_output CS_S_PIN HIGH.

(** [test_pins] (lines 38-59) *)
Definition test_pins : M bool :=
  busy_state <- GPIO_input BUSY_PIN ;;
  GPIO_output RST_PIN HIGH ;;
  time_sleep 200 ;;
  GPIO_output RST_PIN LOW ;;
  time_sleep 2 ;;
  GPIO_output RST_PIN HIGH ;;
  time_sleep 200 ;;
  busy_after_reset <- GPIO_input BUSY_PIN ;;
  ret true.

(** [test_spi_communication] (lines 61-107) *)
Definition test_spi_communication : M bool :=
  emit SpiOpen ;;
  GPIO_output CS_M_PIN LOW ;;
  GPIO_output CS_S_PIN HIGH ;;
  GPIO_output DC_PIN LOW ;;
  emit (SpiXfer2 0x04) ;;
  time_sleep 100 ;;
  busy_state <- GPIO_input BUSY_PIN ;;
  GPIO_output CS_M_PIN HIGH ;;
  GPIO_output CS_S_PIN LOW ;;
  GPIO_output CS_M_PIN HIGH ;;
  emit (SpiXfer2 0x04) ;;
  GPIO_output CS_S_PIN HIGH ;;
  emit SpiClose ;;
  ret true.

(** [main] (lines 109-137): both results are only printed; the
    [finally] clause runs before [True] is returned. *)
Definition main : M bool :=
  init_gpio ;;
  pins_ok <- test_pins ;;
  spi_ok <- test_spi_communication ;;
  emit GpioCleanup ;;
  ret true.

End Script.

End simple_test.

(** Pin definitions of [display_diagnostic.py] (lines 13-15). *)
Module display_diagnostic.

Definition RST_PIN : Z := 17.
Definition DC_PIN : Z := 25.
Definition BUSY_PIN : Z := 24.

(** ** The reset sequence test

    It runs in the hardware world of [epaper_test]; as there, the calls
    into [RPi.GPIO] and [spidev] do not raise. *)

Import (notations) epaper_test.
Import epaper_test(level(..), direction(..), event(..), world(..), Environment(..), M, ret,
                   bind, emit, GPIO_output, GPIO_setup, GPIO_input, time_sleep, time_time,
                   level_eqb).
Local Open Scope epd_scope.

(** One reading of the busy pin that equals the first one, and the nap
    after it. *)
Definition steady_poll (initial_busy : level) : list event :=
  [GpioInput BUSY_PIN initial_busy; TimeSleep 100].

Section Script.

Context {panel : Environment}.

(** The loop of lines 123-130, [count] being the iterations left: it is
    left by [break] at the first reading that differs. *)
Fixpoint monitor (count : nat) (initial_busy : level) : M unit :=
  match count with
  | O => ret tt
  | S k =>
      current_busy <- GPIO_input BUSY_PIN ;;
      if negb (level_eqb current_busy initial_busy) then ret tt
      else time_sleep 100 ;; monitor k initial_busy
  end.

(** [test_display_reset_sequence] (lines 83-142) *)
Definition test_display_reset_sequence : M bool :=
  emit (GpioSetwarnings false) ;;
  emit GpioSetmode ;;
  GPIO_setup RST_PIN OUT ;;
  GPIO_setup DC_PIN OUT ;;
  GPIO_setup BUSY_PIN IN ;;
  emit SpiOpen ;;
  before_reset <- GPIO_input BUSY_PIN ;;
  GPIO_output RST_PIN HIGH ;;
  time_sleep 200 ;;
  GPIO_output RST_PIN LOW ;;
  time_sleep 2 ;;
  GPIO_output RST_PIN HIGH ;;
  time_sleep 200 ;;
  after_reset <- GPIO_input BUSY_PIN ;;
  GPIO_output DC_PIN LOW ;;
  emit (SpiXfer2 0x04) ;;
  start_time <- time_time ;;
  initial_busy <- GPIO_input BUSY_PIN ;;
  monitor 100 initial_busy ;;
  final_busy <- GPIO_input BUSY_PIN ;;
  emit SpiClose ;;
  emit GpioCleanup ;;
  ret true.

End Script.

End display_diagnostic.

(* ===================================================================== *)
(** * fetch_flags.py                                                      *)
(* ===================================================================== *)

Module fetch_flags.

Local Open Scope string_scope.
Local Open Scope Z_scope.

(** ** Python values *)

(** What [response.json()] returns: [None], [bool], numbers, [str],
    [list] and [dict] (members in insertion order, keys unique).  Numbers
    are only passed through to the metadata and are kept as integers. *)
#[warnings="-register-all"]
Inductive json :=
| JNull
| JBool (b : bool)
| JNum (n : Z)
| JStr (s : string)
| JArr (items : list json)
| JObj (members : list (string * json)).

(** A Python expression either has a value or raises an [Exception]:
    [None] is "raises". *)
Definition raise {A} : option A := None.

Fixpoint assoc (key : string) (members : list (string * json)) : option json :=
  match members with
  | [] => None
  | (k, v) :: rest => if String.eqb key k then Some v else assoc key rest
  end.

(** [obj.get(key, default)]; only a [dict] has [.get]. *)
Definition dict_get (obj : json) (key : string) (default : json) : option json :=
  match obj with
  | JObj members => Some (match assoc key members with Some v => v | None => default end)
  | _ => raise
  end.

(** [obj.values()] and [obj.items()]. *)
Definition dict_values (obj : json) : option (list json) :=
  match obj with
  | JObj members => Some (map snd members)
  | _ => raise
  end.

Definition dict_items (obj : json) : option (list (string * json)) :=
  match obj with
  | JObj members => Some members
  | _ => raise
  end.

(** [obj[0]]: first element of a list, first character of a string;
    [IndexError] when empty, [KeyError] on a dict (its keys are strings),
    [TypeError] otherwise. *)
Definition subscript0 (obj : json) : option json :=
  match obj with
  | JArr (x :: _) => Some x
  | JStr (String c _) => Some (JStr (String c EmptyString))
  | _ => raise
  end.

(** Iterating: a list gives its elements, a string its characters, a dict
    its keys; nothing else is iterable. *)
Definition py_iter (obj : json) : option (list json) :=
  match obj with
  | JArr items => Some items
  | JStr s => Some (map (fun c => JStr (String c EmptyString)) (list_ascii_of_string s))
  | JObj members => Some (map (fun kv => JStr (fst kv)) members)
  | _ => raise
  end.

Definition as_str (v : json) : option string :=
  match v with
  | JStr s => Some s
  | _ => raise
  end.

(** [sep.join(items)]: every item must be a [str]. *)
Definition join_items (sep : string) (items : list json) : option string :=
  strs ← mapM as_str items; Some (String.concat sep strs).

(** [sep.join(obj)] *)
Definition str_join (sep : string) (obj : json) : option string :=
  items ← py_iter obj; join_items sep items.

(** [s.replace(" ", "_")] *)
Fixpoint replace_spaces (s : string) : string :=
  match s with
  | EmptyString => EmptyString
  | String c rest =>
      String (if Ascii.eqb c " "%char then "_"%char else c) (replace_spaces rest)
  end.

(** [s.endswith(suffix)] *)
Definition endswith (s suffix : string) : bool :=
  let n := String.length s in
  let m := String.length suffix in
  (m <=? n)%nat && String.eqb (String.substring (n - m) m s) suffix.

(** [os.path.join(directory, name)] for a [directory] without a trailing
    slash: an absolute [name] replaces the directory. *)
Definition path_join (directory name : string) : string :=
  match name with
  | String "/"%char _ => name
  | _ => directory +:+ "/" +:+ name
  end.

(** ** Images *)

(** A pixel is the tuple of its band values; [(255, 255, 255)] is an RGB
    white. *)
Definition pixel : Type := list Z.

Record image := Image {
  width : Z;
  height : Z;
  getpixel : Z -> Z -> pixel
}.

(** The integers [0 .. n-1]. *)
Definition zrange (n : Z) : list Z := map Z.of_nat (seq 0 (Z.to_nat n)).

(** [img.getdata()]: the pixels, row by row. *)
Definition getdata (img : image) : list pixel :=
  flat_map (fun y => map (fun x => getpixel img x y) (zrange (width img)))
           (zrange (height img)).

(** [Image.new("RGB", (w, h), color)] *)
Definition Image_new (w h : Z) (color : pixel) : image :=
  {| width := w; height := h; getpixel := fun _ _ => color |}.

(** ** Files *)

(** A file is an image as [Image.open] decodes it, a JSON document as
    [json.dump] wrote it, or something else. *)
Inductive file :=
| ImageFile (img : image)
| JsonFile (doc : json)
| OtherFile.

(** [Image.open(path)] on the content of a file. *)
Definition open_image (f : file) : option image :=
  match f with
  | ImageFile img => Some img
  | _ => raise
  end.

(** ** Paths

    Two spellings can name one file: [server/info/./index.json] is
    [server/info/index.json].  A file is identified by its location, the
    names of the directories from the root down to it and its own name.
    The file system has no symbolic or hard links and compares names
    byte by byte. *)

(** The pieces of a path between its slashes. *)
Fixpoint segments (s : string) : list string :=
  match s with
  | EmptyString => [EmptyString]
  | String c rest =>
      if Ascii.eqb c "/"%char then EmptyString :: segments rest
      else match segments rest with
           | seg :: segs => String c seg :: segs
           | [] => [String c EmptyString]
           end
  end.

(** One step of a walk; [dir] has the innermost directory first.  An
    empty piece and [.] stay, [..] goes up and stays at the root. *)
Definition walk (dir : list string) (seg : string) : list string :=
  if String.eqb seg "" || String.eqb seg "." then dir
  else if String.eqb seg ".." then tail dir
  else seg :: dir.

Definition is_absolute (path : string) : bool :=
  match path with
  | String c _ => Ascii.eqb c "/"%char
  | EmptyString => false
  end.

(** The location a path names for a process whose working directory is
    at [cwd]. *)
Definition locate_from (cwd : list string) (path : string) : list string :=
  rev (fold_left walk (segments path) (if is_absolute path then [] else rev cwd)).

(** The files by location, and the flag URLs for which a request went
    to the network so far.  Directories are not part of the state: the
    script creates them before [fetch_and_save_flags] runs (lines 17-18)
    and neither creates nor removes one after that. *)
Record world := World {
  files : gmap (list string) file;
  requests : list json
}.

Definition FLAGS_DIR : string := "server/flags".
Definition INFO_DIR : string := "server/info".

Definition screen_width : Z := 800.
Definition screen_height : Z := 480.

Definition background_color : pixel := [255; 255; 255].

(** [sum(count for color, count in Counter(pixels).items()
         if color != background_color)] *)
Definition non_background_pixels (img : image) : Z :=
  Z.of_nat (length (filter (fun color => color <> background_color) (getdata img))).

(** The fields lines 35-52 extract from a country. *)
Record fields := Fields {
  country_name : json;
  official_name : json;
  flag_url : json;
  population : json;
  area : json;
  capital : json;
  region : json;
  subregion : json;
  languages : string;
  currencies : string;
  timezone : string;
  borders : string;
  country_id : string
}.

(** Lines 110-122. *)
Definition metadata (f : fields) : json :=
  JObj [("country", country_name f);
        ("official_name", official_name f);
        ("population", population f);
        ("area", area f);
        ("capital", capital f);
        ("region", region f);
        ("subregion", subregion f);
        ("languages", JStr (languages f));
        ("currencies", JStr (currencies f));
        ("timezones", JStr (timezone f));
        ("borders", JStr (borders f))].

Definition bmp_path_of (id : string) : string := path_join FLAGS_DIR (id +:+ ".bmp").
Definition json_path_of (id : string) : string := path_join INFO_DIR (id +:+ ".json").
Definition index_path : string := path_join INFO_DIR "index.json".

(** Computations that may raise; what they did to the world before
    raising stays done. *)
Definition F (A : Type) : Type := world -> option A * world.

Definition pure {A} (a : A) : F A := fun w => (Some a, w).

Definition lift {A} (o : option A) : F A := fun w => (o, w).

Definition bind {A B} (m : F A) (k : A -> F B) : F B :=
  fun w => match m w with
           | (Some a, w') => k a w'
           | (None, w') => (None, w')
           end.

Declare Scope flags_scope.
Delimit Scope flags_scope with flags.
Notation "x <- m ;; k" := (bind m (fun x => k))
  (at level 100, m at next level, right associativity) : flags_scope.
Notation "m ;; k" := (bind m (fun _ => k))
  (at level 100, right associativity) : flags_scope.

(** The last character of a string. *)
Fixpoint last_char (s : string) : option ascii :=
  match s with
  | EmptyString => None
  | String c EmptyString => Some c
  | String _ rest => last_char rest
  end.

(** What [requests.get(url)] followed by [raise_for_status()] comes to:
    the call raised before anything went to the network, the request
    went out and the call or the status check raised, or the body of the
    response. *)
Inductive reply :=
| NotSent
| Failed
| Content (body : string).

Definition sent (r : reply) : bool :=
  match r with
  | NotSent => false
  | _ => true
  end.

(** ** The outside world

    Everything the script calls but does not define: the two Python
    built-ins the model does not spell out ([str.lower] and the formatting
    of a value in an f-string), the file system as far as it is not state,
    and the network and imaging libraries.

    - [cwd]: the working directory, from the root down;
    - [reachable path]: every directory on the way to [path] exists and
      can be searched, so that the path can name a file;
    - [creatable path]: a file can be created or truncated at [path]
      (the name is one the file system takes, the directory can be
      written, no directory has the name);
    - [http_get k url]: the [k]-th flag request that goes out, for a URL
      that is a non-empty string;
    - [svg2png]: [cairosvg.svg2png] at the given output size;
    - [image_decode]: [Image.open(BytesIO(data))];
    - [thumbnail]: [img.thumbnail(size, Image.LANCZOS)], the image it
      leaves in [img];
    - [to_rgb]: the conversion of a pasted pixel to the mode of an RGB
      canvas.

    Whether a path is reachable or creatable does not change during a
    run. *)
Class Outside := {
  str_lower : string -> string;
  format_value : json -> string;
  cwd : list string;
  reachable : string -> bool;
  creatable : string -> bool;
  http_get : nat -> string -> reply;
  svg2png : string -> Z -> Z -> option string;
  image_decode : string -> option image;
  thumbnail : image -> Z * Z -> option image;
  to_rgb : pixel -> pixel
}.

(** ** Concrete values for examples *)

Definition nowhere : world := {| files := ∅; requests := [] |}.

(** A country whose ["name"] is a string, as version 2 of the REST
    Countries API has it. *)
Definition france_v2 : json := JObj [("name", JStr "France")].

(** A country with an empty list of capitals. *)
Definition atlantis : json :=
  JObj [("name", JObj [("common", JStr "atlantis")]); ("capital", JArr [])].

Definition norway : json :=
  JObj [("name", JObj [("common", JStr "norway"); ("official", JStr "Kingdom of Norway")]);
        ("capital", JArr [JStr "Oslo"]);
        ("population", JNum 5379475);
        ("region", JStr "Europe");
        ("flags", JObj [("svg", JStr "https://flagcdn.com/no.svg")])].

(** A country whose name has a slash, and one without a flag URL. *)
Definition slashland : json :=
  JObj [("name", JObj [("common", JStr "a/b")]);
        ("flags", JObj [("svg", JStr "https://flagcdn.com/ab.svg")])].

Definition flagless : json := JObj [("name", JObj [("common", JStr "flagless")])].

(** An environment without network, and one in which every download
    gives a black image of two by one pixels.  The names in the examples
    are in lower case already.  The only directories are the two of
    the script, so that a name with a slash in it cannot be written. *)
Definition ascii_lower (s : string) : string := s.
Definition show (v : json) : string := match v with JStr s => s | _ => "None" end.
Definition home : list string := ["home"; "pi"; "Glance"].
Definition script_dirs : list (list string) :=
  [[]; ["home"]; ["home"; "pi"]; home; home ++ ["server"];
   home ++ ["server"; "flags"]; home ++ ["server"; "info"]]%list.

Fixpoint follow (dir : list string) (segs : list string) : bool :=
  match segs with
  | [] => false
  | [name] => true
  | seg :: rest =>
      let dir' := walk dir seg in
      bool_decide (rev dir' ∈ script_dirs) && follow dir' rest
  end.

Definition in_script_dirs (path : string) : bool :=
  follow (if is_absolute path then [] else rev home) (segments path).
Definition offline : nat -> string -> reply := fun _ _ => Failed.
Definition online : nat -> string -> reply := fun _ _ => Content "data".
Definition render_svg : string -> Z -> Z -> option string := fun content _ _ => Some content.
Definition dot : image := {| width := 2; height := 1; getpixel := fun _ _ => [0; 0; 0] |}.
Definition decode_dot : string -> option image := fun _ => Some dot.
Definition keep_size : image -> Z * Z -> option image := fun img _ => Some img.
Definition same_pixel : pixel -> pixel := fun p => p.

(** A flag that fills its canvas. *)
Definition black_flag : image := Image_new screen_width screen_height [0; 0; 0].

(** A world in which the flag of Norway is cached and fills its canvas. *)
Definition cached : world :=
  {| files := {[ locate_from home (bmp_path_of "norway") := ImageFile black_flag ]};
     requests := [] |}.

Definition online_world : Outside :=
  {| str_lower := ascii_lower; format_value := show; cwd := home;
     reachable := in_script_dirs; creatable := fun _ => true; http_get := online;
     svg2png := render_svg; image_decode := decode_dot; thumbnail := keep_size;
     to_rgb := same_pixel |}.

Definition offline_world : Outside :=
  {| str_lower := ascii_lower; format_value := show; cwd := home;
     reachable := in_script_dirs; creatable := fun _ => true; http_get := offline;
     svg2png := render_svg; image_decode := decode_dot; thumbnail := keep_size;
     to_rgb := same_pixel |}.

Local Open Scope flags_scope.

Section Script.

Context {outside : Outside}.

(** The location of a path, and whether [open(path, "w")] succeeds. *)
Definition locate (path : string) : list string := locate_from cwd path.

Definition writable (path : string) : bool := reachable path && creatable path.

(** What is found at a path: nothing if the path cannot be followed. *)
Definition read_file (fs : gmap (list string) file) (path : string) : option file :=
  if reachable path then fs !! locate path else None.

(** [open(path, "w")] or [canvas.save(path)] and what is written through
    it: the call raises, and leaves the files alone, when the path cannot
    be opened for writing. *)
Definition write_file (path : string) (f : file) : F unit :=
  fun w =>
    if writable path
    then (Some tt, {| files := <[locate path := f]> (files w); requests := requests w |})
    else (None, w).

(** Lines 56-83: the value of [flag_needs_update] before line 85.  The
    quotient [non_background_pixels / (width * height) < 0.5] of two
    integers below 2^53 is compared exactly. *)
Definition flag_needs_update (fs : gmap (list string) file) (bmp_path : string) : bool :=
  match read_file fs bmp_path with
  | Some f =>
      match open_image f with
      | Some img =>
          if negb (width img =? screen_width) || negb (height img =? screen_height)
          then true
          else if 2 * non_background_pixels img <? width img * height img
               then true
               else false
      | None => true
      end
  | None => true
  end.

(** [canvas.paste(img, (x_offset, y_offset))] *)
Definition paste (canvas img : image) (box : Z * Z) : image :=
  let '(x_offset, y_offset) := box in
  {| width := width canvas;
     height := height canvas;
     getpixel := fun x y =>
       if (x_offset <=? x) && (x <? x_offset + width img) &&
          (y_offset <=? y) && (y <? y_offset + height img)
       then to_rgb (getpixel img (x - x_offset) (y - y_offset))
       else getpixel canvas x y |}.

(** Lines 35-52. *)
Definition extract (country : json) : option fields :=
  name ← dict_get country "name" (JObj []);
  country_name ← dict_get name "common" (JStr "Unknown");
  name' ← dict_get country "name" (JObj []);
  official_name ← dict_get name' "official" (JStr "Unknown");
  flags ← dict_get country "flags" (JObj []);
  flag_url ← dict_get flags "svg" (JStr "");
  population ← dict_get country "population" (JNum 0);
  area ← dict_get country "area" (JNum 0);
  capitals ← dict_get country "capital" (JArr [JStr "Unknown"]);
  capital ← subscript0 capitals;
  region ← dict_get country "region" (JStr "Unknown");
  subregion ← dict_get country "subregion" (JStr "Unknown");
  langs ← dict_get country "languages" (JObj []);
  lang_names ← dict_values langs;
  languages ← join_items ", " lang_names;
  currs ← dict_get country "currencies" (JObj []);
  curr_items ← dict_items currs;
  curr_parts ← mapM (fun item : string * json =>
                       currency ← dict_get (snd item) "name" JNull;
                       Some (format_value currency +:+ " (" +:+ fst item +:+ ")"))
                    curr_items;
  zones ← dict_get country "timezones" (JArr []);
  timezone ← str_join ", " zones;
  neighbours ← dict_get country "borders" (JArr []);
  borders ← str_join ", " neighbours;
  lowered ← match country_name with
            | JStr s => Some (str_lower s)
            | _ => raise
            end;
  Some {| country_name := country_name;
          official_name := official_name;
          flag_url := flag_url;
          population := population;
          area := area;
          capital := capital;
          region := region;
          subregion := subregion;
          languages := languages;
          currencies := String.concat ", " curr_parts;
          timezone := timezone;
          borders := borders;
          country_id := replace_spaces lowered |}.

(** What the [k]-th call of lines 88-89 comes to.  A URL without a
    scheme makes [requests.get] raise before it connects: so the empty
    string, the default of line 37, and every value that is not a string,
    of which [requests] takes the [str()]. *)
Definition fetch (k : nat) (url : json) : reply :=
  match url with
  | JStr EmptyString => NotSent
  | JStr s => http_get k s
  | _ => NotSent
  end.

(** Lines 88-89: a request that went out is on record whether it
    succeeded or not. *)
Definition requests_get (url : json) : F string :=
  fun w =>
    let r := fetch (length (requests w)) url in
    (match r with Content body => Some body | _ => None end,
     {| files := files w;
        requests := if sent r then requests w ++ [url] else requests w |}).

(** Lines 91-99. *)
Definition load_flag (url : json) (content : string) : option image :=
  match url with
  | JStr s =>
      if endswith s ".svg"
      then png_data ← svg2png content screen_width screen_height; image_decode png_data
      else image_decode content
  | _ => raise
  end.

(** Lines 101-106: the canvas that is saved. *)
Definition render_flag (img : image) : option image :=
  resized ← thumbnail img (screen_width, screen_height);
  let canvas := Image_new screen_width screen_height [255; 255; 255] in
  let x_offset := (screen_width - width resized) / 2 in
  let y_offset := (screen_height - height resized) / 2 in
  Some (paste canvas resized (x_offset, y_offset)).

(** Lines 85-107. *)
Definition update_flag (url : json) (bmp_path : string) : F unit :=
  content <- requests_get url ;;
  img <- lift (load_flag url content) ;;
  canvas <- lift (render_flag img) ;;
  write_file bmp_path (ImageFile canvas).

(** The body of the inner [try] (lines 34-128): the new [index_data]. *)
Definition process_country (country : json) (index_data : list string) : F (list string) :=
  f <- lift (extract country) ;;
  let bmp_path := bmp_path_of (country_id f) in
  needs_update <- (fun w => (Some (flag_needs_update (files w) bmp_path), w)) ;;
  (if needs_update : bool then update_flag (flag_url f) bmp_path else pure tt) ;;
  write_file (json_path_of (country_id f)) (JsonFile (metadata f)) ;;
  pure (index_data ++ [country_id f +:+ ".json"])%list.

(** What the [except] clause of line 131 evaluates for its message:
    [country.get('name', {}).get('common', 'Unknown')]. *)
Definition failure_message (country : json) : option json :=
  name ← dict_get country "name" (JObj []);
  dict_get name "common" (JStr "Unknown").

(** The [for] loop of lines 32-131; it raises when the [except] clause
    does. *)
Fixpoint for_countries (countries : list json) (index_data : list string) : F (list string) :=
  match countries with
  | [] => pure index_data
  | country :: rest =>
      fun w =>
        match process_country country index_data w with
        | (Some index_data', w') => for_countries rest index_data' w'
        | (None, w') =>
            match failure_message country with
            | Some _ => for_countries rest index_data w'
            | None => (None, w')
            end
        end
  end.

(** [fetch_and_save_flags] (lines 20-139): the outer [try] swallows
    whatever escapes.  [api_countries] is what lines 24-26 give:
    [requests.get(REST_COUNTRIES_API)], [raise_for_status()] and
    [.json()]. *)
Definition fetch_and_save_flags (api_countries : option json) (w : world) : world :=
  let run : F unit :=
    response <- lift api_countries ;;
    countries <- lift (py_iter response) ;;
    index_data <- for_countries countries [] ;;
    write_file index_path (JsonFile (JArr (map JStr index_data))) in
  snd (run w).

(** What the download of lines 88-106 produces, if anything. *)
Definition downloaded (k : nat) (url : json) : option image :=
  match fetch k url with
  | Content body => img ← load_flag url body; render_flag img
  | _ => None
  end.

(** The entry line 127 appends for a country and the URL line 88
    requests for it; both exist when lines 35-52 do not raise. *)
Definition index_entry (country : json) : option string :=
  f ← extract country; Some (country_id f +:+ ".json").

Definition flag_request (country : json) : option json :=
  f ← extract country; Some (flag_url f).

(** The entry of a country whose metadata file can be written. *)
Definition saved_entry (country : json) : option string :=
  f ← extract country;
  if writable (json_path_of (country_id f)) then Some (country_id f +:+ ".json") else None.

End Script.

End fetch_flags.

(* ===================================================================== *)
(** * Properties of the display driver                                    *)
(* ===================================================================== *)

Module epaper_test_spec.

Import epaper_test.
Local Open Scope epd_scope.

Section Driver.

Context {panel : Environment}.

(** ** Running computations *)

Lemma runs_ret {A} (a : A) w : runs (ret a) w a [] w.
Proof. split; [reflexivity | now rewrite app_nil_r]. Qed.

Lemma runs_bind {A B} (m : M A) (k : A -> M B) w a ev1 w1 b ev2 w2 :
  runs m w a ev1 w1 -> runs (k a) w1 b ev2 w2 ->
  runs (bind m k) w b (ev1 ++ ev2) w2.
Proof.
  intros [Hm Ht1] [Hk Ht2]. split.
  - unfold bind. now rewrite Hm.
  - now rewrite Ht2, Ht1, app_assoc.
Qed.

Lemma runs_emit e w :
  exists w', runs (emit e) w tt [e] w' /\
             now w' = now w /\ reads w' = reads w /\ naps w' = naps w.
Proof. eexists. repeat split. Qed.

Lemma runs_time_sleep ms w :
  exists w', runs (time_sleep ms) w tt [TimeSleep ms] w' /\
             now w' = now w + ms + Z.of_N (lag (naps w)) /\
             reads w' = reads w /\ naps w' = S (naps w).
Proof. eexists. repeat split. Qed.

Lemma runs_send_command c w :
  exists w', runs (_send_command c) w tt [GpioOutput DC_PIN LOW; SpiXfer2 c] w' /\
             now w' = now w /\ reads w' = reads w /\ naps w' = naps w.
Proof. eexists. repeat split. cbn. now rewrite <- app_assoc. Qed.

Lemma runs_send_data d w :
  exists w', runs (_send_data d) w tt [GpioOutput DC_PIN HIGH; SpiXfer2 d] w' /\
             now w' = now w /\ reads w' = reads w /\ naps w' = naps w.
Proof. eexists. repeat split. cbn. now rewrite <- app_assoc. Qed.

(** ** Traces *)

Lemma framed_weaken p tr : framed false tr = true -> framed p tr = true.
Proof. destruct tr as [|[] tr]; cbn; try easy. Qed.

Lemma framed_app p a b :
  framed p a = true -> framed false b = true -> framed p (a ++ b) = true.
Proof.
  revert p. induction a as [|e a IH]; intros p Ha Hb.
  - now apply framed_weaken.
  - destruct e; cbn in *; auto.
    apply andb_true_iff in Ha as [-> Ha]. cbn. auto.
Qed.

Lemma dc_framed_app a b :
  dc_framed a = true -> dc_framed b = true -> dc_framed (a ++ b) = true.
Proof. apply framed_app. Qed.

(** A framed trace, read off: each transfer has a DC write right before. *)
Lemma framed_xfer p tr :
  framed p tr = true ->
  forall pre b post, tr = pre ++ SpiXfer2 b :: post ->
    (pre = [] /\ p = true) \/ exists pre' l, pre = pre' ++ [GpioOutput DC_PIN l].
Proof.
  revert p. induction tr as [|e tr IH]; intros p Hf pre b post Heq.
  - now destruct pre.
  - destruct pre as [|e' pre]; cbn in Heq; injection Heq as -> ->.
    + left. cbn in Hf. apply andb_true_iff in Hf as [-> _]. auto.
    + right.
      assert (Hrec : exists q, framed q (pre ++ SpiXfer2 b :: post) = true /\
                               (q = true -> exists l, e' = GpioOutput DC_PIN l)).
      { destruct e'; cbn in Hf;
          try (exists false; split; [exact Hf | discriminate]).
        - exists (pin =? DC_PIN). split; [exact Hf|].
          intros Hp. apply Z.eqb_eq in Hp as ->. eauto.
        - apply andb_true_iff in Hf as [_ Hf].
          exists false; split; [exact Hf | discriminate]. }
      destruct Hrec as (q & Hq & Hq').
      destruct (IH q Hq pre b post eq_refl) as [[-> ->]|(pre' & l & ->)].
      * destruct (Hq' eq_refl) as [l ->]. exists [], l. reflexivity.
      * exists (e' :: pre'), l. reflexivity.
Qed.

Lemma bus_view_app dc a b :
  exists dc', bus_view dc (a ++ b) = bus_view dc a ++ bus_view dc' b.
Proof.
  revert dc. induction a as [|e a IH]; intros dc.
  - exists dc. reflexivity.
  - destruct e; cbn; try apply IH.
    destruct (IH dc) as [dc' ->]. exists dc'. reflexivity.
Qed.

Lemma shape_nil : shape [] [].
Proof. split; reflexivity. Qed.

Lemma shape_app a b ma mb : shape a ma -> shape b mb -> shape (a ++ b) (ma ++ mb).
Proof.
  intros [Fa Va] [Fb Vb]. split.
  - now apply dc_framed_app.
  - intros dc. destruct (bus_view_app dc a b) as [dc' ->]. now rewrite Va, Vb.
Qed.

Lemma shape_command c : shape [GpioOutput DC_PIN LOW; SpiXfer2 c] [Command c].
Proof. split; [reflexivity | intros []; reflexivity]. Qed.

Lemma shape_data d : shape [GpioOutput DC_PIN HIGH; SpiXfer2 d] [Data d].
Proof. split; [reflexivity | intros []; reflexivity]. Qed.

Lemma shape_quiet ev : forallb is_quiet ev = true -> shape ev [].
Proof.
  intros H. split.
  - unfold dc_framed. induction ev as [|[] ev IH]; cbn in *; try easy; auto.
  - induction ev as [|[] ev IH]; cbn in *; intros; try easy; auto.
Qed.

Lemma shape_flat_map {A} (f : A -> list event) (g : A -> list message) l :
  (forall a, shape (f a) (g a)) -> shape (flat_map f l) (flat_map g l).
Proof.
  intros H. induction l as [|a l IH]; cbn.
  - apply shape_nil.
  - now apply shape_app.
Qed.

(** ** Rules for [always] *)

Lemma always_ret {A} (a : A) (P : A -> list event -> Prop) :
  P a [] -> always (ret a) P.
Proof. intros H w. exists a, [], w. split; [apply runs_ret | exact H]. Qed.

Lemma always_bind {A B} (m : M A) (k : A -> M B) P (Q : B -> list event -> Prop) :
  always m P ->
  (forall a ev1, P a ev1 -> always (k a) (fun b ev2 => Q b (ev1 ++ ev2))) ->
  always (bind m k) Q.
Proof.
  intros Hm Hk w.
  destruct (Hm w) as (a & ev1 & w1 & Hr1 & HP).
  destruct (Hk a ev1 HP w1) as (b & ev2 & w2 & Hr2 & HQ).
  exists b, (ev1 ++ ev2), w2. split; [eapply runs_bind; eauto | exact HQ].
Qed.

Lemma always_conseq {A} (m : M A) (P Q : A -> list event -> Prop) :
  always m P -> (forall a ev, P a ev -> Q a ev) -> always m Q.
Proof.
  intros Hm HPQ w. destruct (Hm w) as (a & ev & w' & Hr & HP).
  exists a, ev, w'. auto.
Qed.

Lemma always_emit e : always (emit e) (fun _ ev => ev = [e]).
Proof. intros w. destruct (runs_emit e w) as (w' & Hr & _). exists tt, [e], w'. auto. Qed.

Lemma always_time_sleep ms : always (time_sleep ms) (fun _ ev => ev = [TimeSleep ms]).
Proof.
  intros w. destruct (runs_time_sleep ms w) as (w' & Hr & _).
  exists tt, [TimeSleep ms], w'. auto.
Qed.

Lemma always_send_command c :
  always (_send_command c) (fun _ ev => ev = [GpioOutput DC_PIN LOW; SpiXfer2 c]).
Proof.
  intros w. destruct (runs_send_command c w) as (w' & Hr & _).
  exists tt, [GpioOutput DC_PIN LOW; SpiXfer2 c], w'. auto.
Qed.

Lemma always_send_data d :
  always (_send_data d) (fun _ ev => ev = [GpioOutput DC_PIN HIGH; SpiXfer2 d]).
Proof.
  intros w. destruct (runs_send_data d w) as (w' & Hr & _).
  exists tt, [GpioOutput DC_PIN HIGH; SpiXfer2 d], w'. auto.
Qed.

Lemma always_for_range (body : Z -> M unit) (evf : Z -> list event) :
  (forall i, always (body i) (fun _ ev => ev = evf i)) ->
  forall n i step,
    always (for_range n i step body) (fun _ ev => ev = flat_map evf (arange n i step)).
Proof.
  intros Hb. induction n as [|n IH]; intros i step; cbn [for_range arange flat_map].
  - now apply always_ret.
  - eapply always_bind; [apply Hb|]. intros _ ev1 ->.
    eapply always_conseq; [apply IH|]. now intros _ ev ->.
Qed.

(** ** The polling loop *)

Lemma wait_loop_spec n :
  forall start T w,
    Z.max 0 (T - (now w - start)) < 100 * Z.of_nat n ->
    exists k r w',
      runs (wait_loop n start T) w r
           (concat (repeat busy_poll k) ++ (if r then [GpioInput BUSY_PIN LOW] else [])) w' /\
      (forall j, (j < k)%nat -> gpio_in BUSY_PIN (reads w + j) = HIGH) /\
      (r = true -> gpio_in BUSY_PIN (reads w + k) = LOW) /\
      (r = false -> (0 < k)%nat /\ T < now w' - start) /\
      (r = true -> (0 < k)%nat -> now w' - start <= T) /\
      now w' = now w + 100 * Z.of_nat k + lag_sum (naps w) k /\
      reads w' = (reads w + k + (if r then 1 else 0))%nat /\
      naps w' = (naps w + k)%nat.
Proof.
  induction n as [|n IH]; intros start T w Hn; [lia|].
  destruct (gpio_in BUSY_PIN (reads w)) eqn:Hpin.
  - exists 0%nat, true. eexists. split; [|repeat split].
    + split.
      * cbn. unfold bind, GPIO_input. rewrite Hpin. cbn. reflexivity.
      * reflexivity.
    + intros j Hj. lia.
    + intros _. now rewrite Nat.add_0_r.
    + discriminate.
    + discriminate.
    + intros _ Hk. lia.
    + cbn. lia.
    + cbn. lia.
    + cbn. lia.
  - set (w2 := {| trace := (trace w ++ [GpioInput BUSY_PIN HIGH]) ++ [TimeSleep 100];
                  now := now w + 100 + Z.of_N (lag (naps w));
                  reads := S (reads w); naps := S (naps w) |}).
    assert (Hstep : wait_loop (S n) start T w =
                    (if T <? now w2 - start then ret false
                     else wait_loop n start T) w2).
    { cbn. unfold bind, GPIO_input. rewrite Hpin. cbn. reflexivity. }
    destruct (T <? now w2 - start) eqn:Hcheck.
    + apply Z.ltb_lt in Hcheck.
      exists 1%nat, false, w2. split; [|repeat split]; try discriminate.
      * split; [exact Hstep|]. cbn. now rewrite <- app_assoc.
      * intros j Hj. assert (j = 0%nat) as -> by lia. now rewrite Nat.add_0_r.
      * lia.
      * exact Hcheck.
      * cbn. lia.
      * cbn. lia.
      * cbn. lia.
    + apply Z.ltb_ge in Hcheck.
      destruct (IH start T w2)
        as (k & r & w' & [Hrun Htr] & Hhigh & Hlow & Hfalse & Htrue & Hnow & Hreads & Hnaps).
      { cbn in *. lia. }
      exists (S k), r, w'. split; [|repeat split].
      * split; [now rewrite Hstep|].
        rewrite Htr. cbn. now rewrite <- !app_assoc.
      * intros j Hj. destruct j as [|j]; [now rewrite Nat.add_0_r|].
        replace (reads w + S j)%nat with (reads w2 + j)%nat by (cbn; lia).
        apply Hhigh. lia.
      * intros Hr. replace (reads w + S k)%nat with (reads w2 + k)%nat by (cbn; lia). auto.
      * lia.
      * now apply Hfalse.
      * intros Hr _. destruct k as [|k]; [|apply Htrue; [exact Hr | lia]].
        cbn in Hnow. rewrite Hnow. cbn in Hcheck. lia.
      * rewrite Hnow. cbn. lia.
      * cbn in Hreads. lia.
      * cbn in Hnaps. lia.
Qed.

Lemma quiet_polls (k : nat) (r : bool) :
  forallb is_quiet (concat (repeat busy_poll k) ++
                    (if r then [GpioInput BUSY_PIN LOW] else [])) = true.
Proof.
  rewrite forallb_app. apply andb_true_iff. split.
  - induction k as [|k IH]; [reflexivity | exact IH].
  - now destruct r.
Qed.

Lemma no_xfer_in_polls (k : nat) (r : bool) : existsb is_xfer (wait_events k r) = false.
Proof.
  unfold wait_events. rewrite existsb_app. apply orb_false_iff. split.
  - induction k as [|k IH]; [reflexivity | exact IH].
  - now destruct r.
Qed.

Lemma wait_until_idle_runs T w :
  Z.max 0 T < 100 * Z.of_nat fuel ->
  exists k r w',
    runs (_wait_until_idle T) w r
         (concat (repeat busy_poll k) ++ (if r then [GpioInput BUSY_PIN LOW] else [])) w' /\
    (forall j, (j < k)%nat -> gpio_in BUSY_PIN (reads w + j) = HIGH) /\
    (r = true -> gpio_in BUSY_PIN (reads w + k) = LOW) /\
    (r = false <-> (0 < k)%nat /\ T < now w' - now w) /\
    now w' - now w = 100 * Z.of_nat k + lag_sum (naps w) k.
Proof.
  intros Hfuel.
  destruct (wait_loop_spec fuel (now w) T w)
    as (k & r & w' & Hrun & Hhigh & Hlow & Hfalse & Htrue & Hnow & _); [lia|].
  exists k, r, w'. split; [|split; [exact Hhigh|split; [exact Hlow|split]]].
  - destruct Hrun as [Hrun Htr]. split; [|exact Htr].
    unfold _wait_until_idle, bind, time_time. exact Hrun.
  - split; [exact Hfalse|].
    intros [Hk Hlate]. destruct r; [|reflexivity].
    specialize (Htrue eq_refl Hk). lia.
  - lia.
Qed.

Lemma always_wait T :
  Z.max 0 T < 100 * Z.of_nat fuel ->
  always (_wait_until_idle T)
         (fun r ev => (exists k, ev = wait_events k r) /\ (pin_idle -> r = true)).
Proof.
  intros Hfuel w.
  destruct (wait_until_idle_runs T w Hfuel) as (k & r & w' & Hrun & Hhigh & _ & Hfalse & _).
  eexists r, _, w'. split; [exact Hrun|]. split; [exists k; reflexivity|].
  intros Hidle. destruct r; [reflexivity|].
  destruct Hfalse as [Hf _]. destruct (Hf eq_refl) as [Hk _].
  specialize (Hhigh 0%nat Hk). rewrite Hidle in Hhigh. discriminate.
Qed.

(** ** Rules for [talks] *)

Lemma talks_ret {A} (a : A) : talks (ret a) [].
Proof. apply always_ret, shape_nil. Qed.

Lemma talks_bind {A B} (m : M A) (k : A -> M B) ms1 ms2 :
  talks m ms1 -> (forall a, talks (k a) ms2) -> talks (bind m k) (ms1 ++ ms2).
Proof.
  intros Hm Hk. eapply always_bind; [exact Hm|].
  intros a ev1 H1. eapply always_conseq; [apply Hk|].
  intros b ev2 H2. now apply shape_app.
Qed.

Lemma talks_eq {A} (m : M A) ms ms' : talks m ms -> ms = ms' -> talks m ms'.
Proof. now intros H <-. Qed.

Lemma talks_emit e : is_xfer e = false -> talks (emit e) [].
Proof.
  intros He. eapply always_conseq; [apply always_emit|].
  intros _ ev ->. split.
  - now destruct e.
  - intros dc. now destruct e.
Qed.

Lemma talks_time_sleep ms : talks (time_sleep ms) [].
Proof.
  eapply always_conseq; [apply always_time_sleep|].
  intros _ ev ->. now apply shape_quiet.
Qed.

Lemma talks_send_command c : talks (_send_command c) [Command c].
Proof.
  eapply always_conseq; [apply always_send_command|].
  intros _ ev ->. apply shape_command.
Qed.

Lemma talks_send_data d : talks (_send_data d) [Data d].
Proof.
  eapply always_conseq; [apply always_send_data|].
  intros _ ev ->. apply shape_data.
Qed.

Lemma talks_wait T : Z.max 0 T < 100 * Z.of_nat fuel -> talks (_wait_until_idle T) [].
Proof.
  intros Hfuel. eapply always_conseq; [now apply always_wait|].
  intros r ev [[k ->] _]. apply shape_quiet, quiet_polls.
Qed.

Lemma talks_for_range (body : Z -> M unit) (g : Z -> list message) :
  (forall i, talks (body i) (g i)) ->
  forall n i step, talks (for_range n i step body) (flat_map g (arange n i step)).
Proof.
  intros Hb. induction n as [|n IH]; intros i step; cbn [for_range arange flat_map].
  - apply talks_ret.
  - apply talks_bind; [apply Hb | intros _; apply IH].
Qed.

Lemma says_ret {A} (a : A) (R : A -> Prop) : R a -> says (ret a) R [].
Proof. intros H. apply always_ret. split; [exact H | apply shape_nil]. Qed.

Lemma says_bind {A B} (m : M A) (k : A -> M B) (R : B -> Prop) ms1 ms2 :
  talks m ms1 -> (forall a, says (k a) R ms2) -> says (bind m k) R (ms1 ++ ms2).
Proof.
  intros Hm Hk. eapply always_bind; [exact Hm|].
  intros a ev1 H1. eapply always_conseq; [apply Hk|].
  intros b ev2 [HR H2]. split; [exact HR | now apply shape_app].
Qed.

Lemma says_eq {A} (m : M A) R ms ms' : says m R ms -> ms = ms' -> says m R ms'.
Proof. now intros H <-. Qed.

Lemma says_talks {A} (m : M A) R ms : says m R ms -> talks m ms.
Proof. intros H. eapply always_conseq; [exact H|]. now intros a ev [_ Hs]. Qed.

(** ** The methods, one by one *)

Ltac exact_step :=
  eapply always_bind;
  [ lazymatch goal with
    | |- always (emit _) _ => apply always_emit
    | |- always (time_sleep _) _ => apply always_time_sleep
    | |- always (_send_command _) _ => apply always_send_command
    | |- always (_send_data _) _ => apply always_send_data
    end
  | cbv beta; intros _ ? -> ].

Ltac talk :=
  repeat lazymatch goal with
    | |- talks (bind _ _) _ => eapply talks_bind; [|intros ?]
    | |- says (bind _ _) _ _ => eapply says_bind; [|intros ?]
    | |- talks (_send_command _) _ => apply talks_send_command
    | |- talks (_send_data _) _ => apply talks_send_data
    | |- talks (time_sleep _) _ => apply talks_time_sleep
    | |- talks (emit _) _ => apply talks_emit; reflexivity
    | |- talks (_wait_until_idle _) _ => apply talks_wait; lia
    | |- talks (ret _) _ => apply talks_ret
    | |- says (ret _) _ _ => apply says_ret; reflexivity
    end.

Lemma always_reset : always _reset (fun _ ev => ev = reset_events).
Proof.
  unfold _reset, GPIO_output. do 5 exact_step.
  eapply always_conseq; [apply always_time_sleep|]. now intros _ ev ->.
Qed.

Lemma talks_refresh : (451 <= fuel)%nat -> talks _refresh [Command 0x12].
Proof.
  intros Hfuel. eapply talks_eq; [unfold _refresh; talk | reflexivity].
Qed.

Lemma talks_white_plane :
  talks (for_range (range_len total_pixels 1) 0 1 (fun i => _send_data 0x11)) white_plane.
Proof.
  apply (talks_for_range _ (fun _ => [Data 0x11])). intros _. apply talks_send_data.
Qed.

Lemma talks_pattern_plane (pixel_data : Z -> Z) :
  talks (for_range (range_len EPD_HEIGHT 1) 0 1 (fun y =>
           for_range (range_len EPD_WIDTH pixels_per_byte) 0 pixels_per_byte (fun x =>
             _send_data (pixel_data y))))
        (pattern_plane pixel_data).
Proof.
  apply (talks_for_range _ (fun y =>
           flat_map (fun x => [Data (pixel_data y)])
                    (arange (range_len EPD_WIDTH pixels_per_byte) 0 pixels_per_byte))).
  intros y. apply (talks_for_range _ (fun _ => [Data (pixel_data y)])).
  intros _. apply talks_send_data.
Qed.

Lemma talks_clear : (451 <= fuel)%nat -> talks clear clear_messages.
Proof.
  intros Hfuel. unfold clear, clear_messages.
  apply talks_bind; [apply talks_send_command | intros _].
  apply talks_bind; [apply talks_white_plane | intros _].
  apply talks_bind; [apply talks_send_command | intros _].
  apply talks_bind; [apply talks_white_plane | intros _].
  now apply talks_refresh.
Qed.

Lemma talks_draw_test_pattern : (451 <= fuel)%nat -> talks draw_test_pattern draw_messages.
Proof.
  intros Hfuel. unfold draw_test_pattern, draw_messages.
  apply talks_bind; [apply talks_send_command | intros _].
  apply talks_bind; [apply talks_pattern_plane | intros _].
  apply talks_bind; [apply talks_send_command | intros _].
  apply talks_bind; [apply talks_pattern_plane | intros _].
  now apply talks_refresh.
Qed.

Lemma talks_sleep : (451 <= fuel)%nat -> talks sleep sleep_messages.
Proof.
  intros Hfuel. eapply talks_eq; [unfold sleep; talk | reflexivity].
Qed.

Lemma talks_cleanup : talks cleanup [].
Proof. eapply talks_eq; [unfold cleanup; talk | reflexivity]. Qed.

Lemma always_cleanup : always cleanup (fun _ ev => ev = [SpiClose; GpioCleanup]).
Proof.
  unfold cleanup. exact_step.
  eapply always_conseq; [apply always_emit|]. now intros _ ev ->.
Qed.

Lemma shape_power_on (k : nat) (ok : bool) (rest : list event) (ms : list message) :
  shape rest ms -> shape (power_on_events k ok rest) (Command 0x04 :: ms).
Proof.
  intros Hrest. unfold power_on_events.
  apply (shape_app _ _ [Command 0x04] ms); [apply shape_command|].
  apply (shape_app _ _ [] ms); [|exact Hrest].
  apply shape_quiet, quiet_polls.
Qed.

Lemma always_init :
  (451 <= fuel)%nat ->
  always init (fun ok ev =>
    (pin_idle -> ok = true) /\
    exists k rest,
      ev = init_config_events ++ reset_events ++ power_on_events k ok rest /\
      shape rest (if ok then panel_messages else []) /\
      (ok = false -> rest = [])).
Proof.
  intros Hfuel. unfold init, GPIO_setup, GPIO_output. do 10 exact_step.
  eapply always_bind; [apply always_reset | cbv beta; intros _ ? ->].
  exact_step.
  eapply always_bind; [apply always_wait; lia | cbv beta; intros idle evq [[k ->] Hidle]].
  destruct idle; cbn [negb].
  - eapply always_conseq with (P := fun ok ev => ok = true /\ shape ev panel_messages).
    + eapply says_eq; [talk | reflexivity].
    + intros ok ev [-> Hsh]. split; [reflexivity|].
      exists k, ev. split; [|split; [exact Hsh | discriminate]].
      unfold power_on_events. rewrite <- ?app_assoc. reflexivity.
  - apply always_ret. split; [exact Hidle|].
    exists k, []. split; [|split; [apply shape_nil | reflexivity]].
    unfold power_on_events. rewrite <- ?app_assoc. reflexivity.
Qed.

Lemma always_main :
  (451 <= fuel)%nat ->
  always main (fun ok ev =>
    (pin_idle -> ok = true) /\
    exists k rest,
      ev = [SpiOpen] ++ init_config_events ++ reset_events ++ power_on_events k ok rest /\
      shape rest (if ok then panel_messages ++ clear_messages ++ draw_messages ++ sleep_messages
                  else []) /\
      (ok = false -> rest = [SpiClose; GpioCleanup])).
Proof.
  intros Hfuel. unfold main, __init__. exact_step.
  eapply always_bind; [now apply always_init | cbv beta].
  intros ok ev1 (Hok & k & rest1 & -> & Hsh & Hrest). destruct ok; cbn [negb].
  - eapply always_conseq with
      (P := fun ok ev => ok = true /\
                         shape ev (clear_messages ++ draw_messages ++ sleep_messages)).
    + eapply says_eq.
      * eapply says_bind; [apply talks_time_sleep | intros _].
        eapply says_bind; [apply talks_clear, Hfuel | intros _].
        eapply says_bind; [apply talks_time_sleep | intros _].
        eapply says_bind; [apply talks_draw_test_pattern, Hfuel | intros _].
        eapply says_bind; [apply talks_sleep, Hfuel | intros _].
        eapply says_bind; [apply talks_cleanup | intros _].
        apply says_ret. reflexivity.
      * rewrite !app_nil_l, !app_nil_r. reflexivity.
    + intros ok ev [-> Hev]. split; [reflexivity|].
      exists k, (rest1 ++ ev). split; [|split; [|discriminate]].
      * unfold power_on_events. rewrite <- ?app_assoc. reflexivity.
      * exact (shape_app _ _ _ _ Hsh Hev).
  - rewrite (Hrest eq_refl).
    eapply always_bind; [apply always_cleanup | cbv beta; intros _ ? ->].
    apply always_ret. split; [exact Hok|].
    exists k, [SpiClose; GpioCleanup]. split; [|split; [|reflexivity]].
    + unfold power_on_events. rewrite <- ?app_assoc, ?app_nil_r. reflexivity.
    + split; [reflexivity | intros []; reflexivity].
Qed.

(** What the panel reads in a run of [main]. *)
Lemma shape_main_run (k : nat) (ok : bool) (rest : list event) :
  shape rest (if ok then panel_messages ++ clear_messages ++ draw_messages ++ sleep_messages
              else []) ->
  shape (power_on_events k ok rest) (main_messages ok).
Proof.
  intros Hrest. destruct ok; cbn [main_messages init_messages].
  - change ((Command 4 :: panel_messages) ++ clear_messages ++ draw_messages ++ sleep_messages)
      with (Command 4 :: (panel_messages ++ clear_messages ++ draw_messages ++ sleep_messages)).
    now apply shape_power_on.
  - now apply shape_power_on.
Qed.

(** ** Loop ranges and message streams *)

Lemma In_arange n : forall i y, In y (arange n i 1) <-> i <= y < i + Z.of_nat n.
Proof.
  induction n as [|n IH]; intros i y; cbn [arange In].
  - lia.
  - rewrite IH. lia.
Qed.

Lemma arange_head n i step : (0 < n)%nat -> In i (arange n i step).
Proof. destruct n; [lia | now left]. Qed.

Lemma commands_app a b : commands (a ++ b) = commands a ++ commands b.
Proof. unfold commands. now rewrite List.filter_app, map_app. Qed.

Lemma commands_data {A} (f : A -> Z) l : commands (flat_map (fun i => [Data (f i)]) l) = [].
Proof. induction l as [|a l IH]; [reflexivity | exact IH]. Qed.

Lemma commands_white_plane : commands white_plane = [].
Proof. apply (commands_data (fun _ => 0x11)). Qed.

Lemma commands_pattern_plane pixel_data : commands (pattern_plane pixel_data) = [].
Proof.
  unfold pattern_plane.
  induction (arange (range_len EPD_HEIGHT 1) 0 1) as [|y l IH]; [reflexivity|].
  cbn [flat_map]. rewrite commands_app, IH, app_nil_r.
  apply (commands_data (fun _ => pixel_data y)).
Qed.

Lemma commands_main_messages :
  commands (main_messages true) =
  [0x04; 0x00; 0x61; 0x10; 0x13; 0x12; 0x10; 0x13; 0x12; 0x02; 0x07].
Proof.
  unfold main_messages, clear_messages, draw_messages.
  rewrite !commands_app, commands_white_plane, !commands_pattern_plane.
  reflexivity.
Qed.

Lemma pattern_plane_ext f g : (forall y, f y = g y) -> pattern_plane f = pattern_plane g.
Proof.
  intros H. unfold pattern_plane.
  induction (arange (range_len EPD_HEIGHT 1) 0 1) as [|y l IH]; [reflexivity|].
  cbn [flat_map]. now rewrite IH, H.
Qed.

Lemma In_pattern_plane pixel_data y :
  0 <= y < EPD_HEIGHT -> In (Data (pixel_data y)) (pattern_plane pixel_data).
Proof.
  intros Hy. unfold pattern_plane. apply List.in_flat_map. exists y. split.
  - apply In_arange. replace (range_len EPD_HEIGHT 1) with 1200%nat by reflexivity.
    unfold EPD_HEIGHT in Hy. lia.
  - apply List.in_flat_map. exists 0. split; [|now left].
    apply arange_head. replace (range_len EPD_WIDTH pixels_per_byte) with 400%nat by reflexivity.
    lia.
Qed.

Lemma shape_init_prefix : shape (init_config_events ++ reset_events) [].
Proof. split; [reflexivity | intros []; reflexivity]. Qed.

Lemma shape_boot_prefix : shape ([SpiOpen] ++ init_config_events ++ reset_events) [].
Proof. split; [reflexivity | intros []; reflexivity]. Qed.

(** ** Pixel packing *)

Lemma pack_unfold color y :
  pack color y =
  Z.lor (Z.lor (Z.lor (Z.shiftl (color y) 6) (Z.shiftl (color y) 4))
               (Z.shiftl (color y) 2))
        (Z.shiftl (color y) 0).
Proof. reflexivity. Qed.

Lemma color_first_stripe y :
  0 <= y < EPD_HEIGHT -> color_first y = Z.min (y / 200) 5.
Proof.
  clear. intros Hy. unfold color_first, rect_height, EPD_HEIGHT in *.
  change (1200 / 6) with 200.
  repeat match goal with
         | |- context [y <? ?b] => destruct (Z.ltb_spec y b)
         end; Z.to_euclidean_division_equations; lia.
Qed.

Lemma color_second_stripe y :
  0 <= y < EPD_HEIGHT -> color_second y = Z.min (y / 200) 5.
Proof.
  clear. intros Hy. unfold color_second, rect_height, EPD_HEIGHT in *.
  change (1200 / 6) with 200.
  repeat match goal with
         | |- context [y <? ?b] => destruct (Z.ltb_spec y b)
         end; Z.to_euclidean_division_equations; lia.
Qed.

(** In the four upper stripes a byte holds its four codes side by side. *)
Lemma upper_stripes_fit y p :
  0 <= y < 4 * rect_height -> In p (range 4) ->
  0 <= color_first y < 4 /\
  0 <= pixel_data_first y < 256 /\
  Z.land (Z.shiftr (pixel_data_first y) (6 - p * 2)) 3 = color_first y.
Proof.
  clear. intros Hy Hp. unfold rect_height, EPD_HEIGHT in Hy. change (1200 / 6) with 200 in Hy.
  assert (Hc : color_first y = Z.min (y / 200) 5)
    by (apply color_first_stripe; unfold EPD_HEIGHT; lia).
  assert (Hq : y / 200 = 0 \/ y / 200 = 1 \/ y / 200 = 2 \/ y / 200 = 3)
    by (Z.to_euclidean_division_equations; lia).
  unfold pixel_data_first. rewrite pack_unfold, Hc.
  cbn in Hp.
  destruct Hq as [-> | [-> | [-> | ->]]];
    destruct Hp as [<- | [<- | [<- | [<- | []]]]]; repeat split; vm_compute; congruence.
Qed.

(** In the two lower stripes the packed value does not fit a byte. *)
Lemma lower_stripes_overflow y :
  4 * rect_height <= y < EPD_HEIGHT ->
  4 <= color_first y <= 5 /\ 340 <= pixel_data_first y <= 341.
Proof.
  clear. intros Hy. unfold rect_height, EPD_HEIGHT in Hy. change (1200 / 6) with 200 in Hy.
  assert (Hc : color_first y = Z.min (y / 200) 5)
    by (apply color_first_stripe; unfold EPD_HEIGHT; lia).
  assert (Hq : y / 200 = 4 \/ y / 200 = 5) by (Z.to_euclidean_division_equations; lia).
  unfold pixel_data_first. rewrite pack_unfold, Hc.
  destruct Hq as [-> | ->]; repeat split; vm_compute; congruence.
Qed.

(** ** The claims about the driver *)

(** C1, evaluated in the blue stripe.  Row 800 has colour code [0x4], which
    needs three bits: the value handed to [_send_data] is 340, it does not
    fit a byte, and the code of the second pixel reaches into the two-bit
    slot of the first. *)
Theorem blue_stripe_code_exceeds_slot :
  color_first 800 = 4 /\
  pixel_data_first 800 = 340 /\
  pixel_data_second 800 = 340 /\
  In (Data 340) (pattern_plane pixel_data_first) /\
  Z.shiftr (color_first 800) 2 = 1 /\
  Z.land (Z.shiftl (color_first 800) (6 - 1 * 2)) (Z.shiftl 3 6) = 64 /\
  Z.shiftr (pixel_data_first 800) 8 = 1.
Proof.
  split; [reflexivity|]. split; [reflexivity|]. split; [reflexivity|].
  split; [|repeat split].
  change 340 with (pixel_data_first 800). apply In_pattern_plane.
  unfold EPD_HEIGHT. lia.
Qed.

(** C2, amended.  [main] always returns.  Its trace starts with opening
    the bus, the GPIO set-up and the hardware reset, none of which puts a
    byte on the bus; then come power-on and the wait for it, and [main]
    returns [True] exactly when this wait does.  On such a run the panel
    reads [main_messages true], whose commands are power-on, panel
    setting, resolution, then twice (once for [clear], once for
    [draw_test_pattern]) the two transmissions and a refresh, and finally
    power-off and deep sleep with data byte [0xA5].  Otherwise only
    power-on is sent.  A panel that is never busy gives a successful
    run. *)
Theorem main_command_sequence (w : world) :
  (451 <= fuel)%nat ->
  exists ok w' k rest,
    main w = Some (ok, w') /\
    trace w' = trace w ++ [SpiOpen] ++ init_config_events ++ reset_events ++
                          power_on_events k ok rest /\
    existsb is_xfer ([SpiOpen] ++ init_config_events ++ reset_events) = false /\
    shape (power_on_events k ok rest) (main_messages ok) /\
    (ok = false -> rest = [SpiClose; GpioCleanup]) /\
    (pin_idle -> ok = true) /\
    commands (main_messages true) =
      [0x04; 0x00; 0x61; 0x10; 0x13; 0x12; 0x10; 0x13; 0x12; 0x02; 0x07] /\
    commands (main_messages false) = [0x04] /\
    (exists ms, main_messages true = ms ++ [Command 0x02; Command 0x07; Data 0xA5]).
Proof.
  intros Hfuel.
  destruct (always_main Hfuel w)
    as (ok & ev & w' & [Hrun Htr] & Hok & k & rest & -> & Hsh & Hrest).
  exists ok, w', k, rest.
  split; [exact Hrun|]. split; [exact Htr|]. split; [reflexivity|].
  split; [now apply shape_main_run|]. split; [exact Hrest|]. split; [exact Hok|].
  split; [apply commands_main_messages|]. split; [reflexivity|].
  exists (init_messages true ++ clear_messages ++ draw_messages).
  unfold main_messages. now rewrite <- !app_assoc.
Qed.

(** C4.  With enough fuel for the loop, [_wait_until_idle] returns after
    [k] polls that read the busy pin high, each followed by a sleep of
    100 ms; nothing else is done, in particular nothing is sent again.  It
    returns [True] right after the first poll that reads low, and [False]
    exactly when at least one poll read high and, after the sleep that
    followed the last one, more than the timeout has passed since the
    call.  The two senders never read the pin: there is no other wait. *)
Theorem wait_until_idle_polls (timeout_ms : Z) (w : world) :
  Z.max 0 timeout_ms < 100 * Z.of_nat fuel ->
  (exists (k : nat) (r : bool) (w' : world),
     _wait_until_idle timeout_ms w = Some (r, w') /\
     trace w' = trace w ++ wait_events k r /\
     (forall j, (j < k)%nat -> gpio_in BUSY_PIN (reads w + j) = HIGH) /\
     (r = true -> gpio_in BUSY_PIN (reads w + k) = LOW) /\
     (r = false <-> (0 < k)%nat /\ timeout_ms < now w' - now w) /\
     now w' - now w = 100 * Z.of_nat k + lag_sum (naps w) k /\
     existsb is_xfer (wait_events k r) = false /\
     forallb is_quiet (wait_events k r) = true) /\
  (forall c, exists w', _send_command c w = Some (tt, w') /\ reads w' = reads w) /\
  (forall d, exists w', _send_data d w = Some (tt, w') /\ reads w' = reads w).
Proof.
  intros Hfuel. split; [|split].
  - destruct (wait_until_idle_runs timeout_ms w Hfuel)
      as (k & r & w' & [Hrun Htr] & Hhigh & Hlow & Hfalse & Hnow).
    exists k, r, w'.
    split; [exact Hrun|]. split; [exact Htr|]. split; [exact Hhigh|].
    split; [exact Hlow|]. split; [exact Hfalse|]. split; [exact Hnow|].
    split; [apply no_xfer_in_polls | apply quiet_polls].
  - intros c. destruct (runs_send_command c w) as (w' & [Hrun _] & _ & Hreads & _).
    exists w'. auto.
  - intros d. destruct (runs_send_data d w) as (w' & [Hrun _] & _ & Hreads & _).
    exists w'. auto.
Qed.

(** C5.  The stripes are 200 rows high; in row [y] both loops use colour
    code [min (y / 200) 5] for each of the four pixels of a byte; row [y]
    is transmitted; and [draw_test_pattern] sends [0x10], a plane, [0x13],
    the same plane again, and a refresh. *)
Theorem test_pattern_stripes (y : Z) :
  (451 <= fuel)%nat ->
  0 <= y < EPD_HEIGHT ->
  rect_height = 200 /\
  color_first y = Z.min (y / 200) 5 /\
  color_second y = Z.min (y / 200) 5 /\
  pixel_data_first y =
    fold_left (fun acc p => Z.lor acc (Z.shiftl (Z.min (y / 200) 5) (6 - p * 2))) (range 4) 0 /\
  In (Data (pixel_data_first y)) (pattern_plane pixel_data_first) /\
  pattern_plane pixel_data_second = pattern_plane pixel_data_first /\
  talks draw_test_pattern
        ([Command 0x10] ++ pattern_plane pixel_data_first ++
         [Command 0x13] ++ pattern_plane pixel_data_second ++ [Command 0x12]).
Proof.
  intros Hfuel Hy.
  split; [reflexivity|]. split; [|split; [|split; [|split; [|split]]]].
  - now apply color_first_stripe.
  - now apply color_second_stripe.
  - unfold pixel_data_first, pack. now rewrite color_first_stripe.
  - now apply In_pattern_plane.
  - apply pattern_plane_ext. reflexivity.
  - now apply talks_draw_test_pattern.
Qed.

(** C9.  [_send_command] drives DC low and then transfers its byte,
    [_send_data] drives DC high and then transfers its byte, so that the
    panel reads the one as a command and the other as data whatever the
    line was before; and in everything the public methods and [main] put
    on the wire, each SPI transfer has a write to the DC pin as its direct
    predecessor, and the panel reads commands and data as they were
    sent. *)
Theorem dc_line_discipline :
  (451 <= fuel)%nat ->
  (forall c, always (_send_command c)
                    (fun _ ev => ev = [GpioOutput DC_PIN LOW; SpiXfer2 c])) /\
  (forall d, always (_send_data d)
                    (fun _ ev => ev = [GpioOutput DC_PIN HIGH; SpiXfer2 d])) /\
  (forall c dc, bus_view dc [GpioOutput DC_PIN LOW; SpiXfer2 c] = [Command c]) /\
  (forall d dc, bus_view dc [GpioOutput DC_PIN HIGH; SpiXfer2 d] = [Data d]) /\
  always init (fun ok ev => disciplined ev (init_messages ok)) /\
  always clear (fun _ ev => disciplined ev clear_messages) /\
  always draw_test_pattern (fun _ ev => disciplined ev draw_messages) /\
  always sleep (fun _ ev => disciplined ev sleep_messages) /\
  always main (fun ok ev => disciplined ev (main_messages ok)).
Proof.
  intros Hfuel.
  assert (Hshape : forall ev ms, shape ev ms -> disciplined ev ms).
  { intros ev ms [Hf Hv]. split; [|exact Hv]. intros pre b post Heq.
    destruct (framed_xfer false ev Hf pre b post Heq) as [[_ ?]|H]; [discriminate | exact H]. }
  assert (Htalks : forall A (m : M A) ms,
             talks m ms -> always m (fun _ ev => disciplined ev ms)).
  { intros A m ms H. eapply always_conseq; [exact H|]. intros a ev. apply Hshape. }
  split; [exact always_send_command|].
  split; [exact always_send_data|].
  split; [intros c []; reflexivity|].
  split; [intros d []; reflexivity|].
  split; [|split; [|split; [|split]]].
  - eapply always_conseq; [now apply always_init|].
    intros ok ev (_ & k & rest & -> & Hsh & _). rewrite app_assoc.
    apply Hshape, (shape_app _ _ [] _ shape_init_prefix).
    now apply shape_power_on.
  - apply Htalks. now apply talks_clear.
  - apply Htalks. now apply talks_draw_test_pattern.
  - apply Htalks. now apply talks_sleep.
  - eapply always_conseq; [now apply always_main|].
    intros ok ev (_ & k & rest & -> & Hsh & _). rewrite 2!app_assoc.
    apply Hshape, (shape_app _ _ [] _); [|now apply shape_main_run].
    rewrite <- app_assoc. apply shape_boot_prefix.
Qed.

(** ** More on the polling loop *)

Lemma wait_loop_deadline n :
  forall start T w r w',
    wait_loop n start T w = Some (r, w') ->
    now w - start <= Z.max 0 T ->
    (r = true -> now w' - start <= Z.max 0 T) /\
    (r = false ->
       now w' - start <= Z.max 0 T + 100 + Z.of_N (lag (Nat.pred (naps w')))).
Proof.
  induction n as [|n IH]; intros start T w r w' Hrun Hentry; [discriminate|].
  cbn [wait_loop] in Hrun. unfold bind, GPIO_input in Hrun.
  destruct (gpio_in BUSY_PIN (reads w)); cbn in Hrun.
  - injection Hrun as <- <-. cbn. split; [intros _; exact Hentry | discriminate].
  - destruct (T <? now w + 100 + Z.of_N (lag (naps w)) - start) eqn:Hcheck.
    + injection Hrun as <- <-. cbn. split; [discriminate | intros _; lia].
    + apply Z.ltb_ge in Hcheck. apply (IH _ _ _ _ _ Hrun). cbn. lia.
Qed.

Lemma always_wait_stuck T :
  Z.max 0 T < 100 * Z.of_nat fuel ->
  always (_wait_until_idle T) (fun r _ => pin_stuck -> r = false).
Proof.
  intros Hfuel w.
  destruct (wait_until_idle_runs T w Hfuel) as (k & r & w' & Hrun & _ & Hlow & _).
  eexists r, _, w'. split; [exact Hrun|].
  intros Hstuck. destruct r; [|reflexivity].
  specialize (Hlow eq_refl). rewrite Hstuck in Hlow. discriminate.
Qed.

(** ** Running a method for its result or for the kind of its events *)

Lemma always_true {A} (m : M A) P : always m P -> always m (fun _ _ => True).
Proof. intros H. eapply always_conseq; [exact H | trivial]. Qed.

Lemma always_after {A B} (m : M A) (k : A -> M B) (R : B -> Prop) :
  always m (fun _ _ => True) ->
  (forall a, always (k a) (fun b _ => R b)) ->
  always (bind m k) (fun b _ => R b).
Proof.
  intros Hm Hk. eapply always_bind; [exact Hm|].
  intros a ev1 _. apply Hk.
Qed.

Lemma only_ret {A} p (a : A) : only p (ret a).
Proof. now apply always_ret. Qed.

Lemma only_bind {A B} p (m : M A) (k : A -> M B) :
  only p m -> (forall a, only p (k a)) -> only p (bind m k).
Proof.
  intros Hm Hk. eapply always_bind; [exact Hm|].
  intros a ev1 H1. eapply always_conseq; [apply Hk|].
  intros b ev2 H2. rewrite forallb_app, H1, H2. reflexivity.
Qed.

Lemma only_emit p e : p e = true -> only p (emit e).
Proof.
  intros He. eapply always_conseq; [apply always_emit|].
  intros _ ev ->. cbn. now rewrite He.
Qed.

Lemma only_time_sleep p ms : p (TimeSleep ms) = true -> only p (time_sleep ms).
Proof.
  intros He. eapply always_conseq; [apply always_time_sleep|].
  intros _ ev ->. cbn. now rewrite He.
Qed.

Lemma only_for_range p (body : Z -> M unit) :
  (forall i, only p (body i)) -> forall n i step, only p (for_range n i step body).
Proof.
  intros Hb. induction n as [|n IH]; intros i step; cbn [for_range].
  - apply only_ret.
  - apply only_bind; [apply Hb | intros _; apply IH].
Qed.

Lemma keeps_bus_wait_events k r : forallb keeps_bus (wait_events k r) = true.
Proof.
  unfold wait_events. rewrite forallb_app. apply andb_true_iff. split.
  - induction k as [|k IH]; [reflexivity | exact IH].
  - now destruct r.
Qed.

Lemma only_wait T :
  Z.max 0 T < 100 * Z.of_nat fuel -> only keeps_bus (_wait_until_idle T).
Proof.
  intros Hfuel. eapply always_conseq; [now apply always_wait|].
  intros r ev [[k ->] _]. apply keeps_bus_wait_events.
Qed.

Ltac keep_bus :=
  repeat lazymatch goal with
    | |- only _ (bind _ _) => apply only_bind; [|intros ?]
    | |- only _ (ret _) => apply only_ret
    | |- only _ (emit _) => apply only_emit; reflexivity
    | |- only _ (GPIO_output _ _) => apply only_emit; reflexivity
    | |- only _ (GPIO_setup _ _) => apply only_emit; reflexivity
    | |- only _ (_spi_transfer _) => apply only_emit; reflexivity
    | |- only _ (time_sleep _) => apply only_time_sleep; reflexivity
    | |- only _ (_wait_until_idle _) => apply only_wait; lia
    | |- only _ (_send_command _) => unfold _send_command
    | |- only _ (_send_data _) => unfold _send_data
    | |- only _ (for_range _ _ _ _) => apply only_for_range; intros ?
    | |- only _ (if negb ?b then _ else _) => destruct b; cbn [negb]
    end.

Lemma only_init : (451 <= fuel)%nat -> only keeps_bus init.
Proof. intros Hfuel. unfold init, _reset. keep_bus. Qed.

Lemma only_refresh : (451 <= fuel)%nat -> only keeps_bus _refresh.
Proof. intros Hfuel. unfold _refresh. keep_bus. Qed.

Lemma only_clear : (451 <= fuel)%nat -> only keeps_bus clear.
Proof.
  intros Hfuel. unfold clear.
  apply only_bind; [keep_bus | intros _].
  apply only_bind; [keep_bus | intros _].
  apply only_bind; [keep_bus | intros _].
  apply only_bind; [keep_bus | intros _].
  now apply only_refresh.
Qed.

Lemma only_draw_test_pattern : (451 <= fuel)%nat -> only keeps_bus draw_test_pattern.
Proof.
  intros Hfuel. unfold draw_test_pattern.
  apply only_bind; [keep_bus | intros _].
  apply only_bind; [keep_bus | intros _].
  apply only_bind; [keep_bus | intros _].
  apply only_bind; [keep_bus | intros _].
  now apply only_refresh.
Qed.

Lemma only_sleep : (451 <= fuel)%nat -> only keeps_bus sleep.
Proof. intros Hfuel. unfold sleep. keep_bus. Qed.

(** What [main] does between opening the bus and the [finally] clause. *)
Lemma always_main_bracket :
  (451 <= fuel)%nat ->
  always main (fun _ ev =>
    exists mid, ev = [SpiOpen] ++ mid ++ [SpiClose; GpioCleanup] /\
                forallb keeps_bus mid = true).
Proof.
  intros Hfuel. unfold main, __init__. exact_step.
  assert (Hend : forall b : bool,
             always (cleanup ;; ret b)
                    (fun _ ev => ev = [SpiClose; GpioCleanup])).
  { intros b. eapply always_bind; [apply always_cleanup | cbv beta; intros _ ? ->].
    apply always_ret. reflexivity. }
  assert (Hseq : forall A B (m : M A) (k : A -> M B),
             only keeps_bus m ->
             (forall a, always (k a) (fun _ ev =>
                exists mid, ev = mid ++ [SpiClose; GpioCleanup] /\
                            forallb keeps_bus mid = true)) ->
             always (bind m k) (fun _ ev =>
                exists mid, ev = mid ++ [SpiClose; GpioCleanup] /\
                            forallb keeps_bus mid = true)).
  { intros A B m k Hm Hk. eapply always_bind; [exact Hm|].
    intros a ev1 H1. eapply always_conseq; [apply Hk|].
    intros b ev2 (mid & -> & Hmid). exists (ev1 ++ mid). split.
    - now rewrite app_assoc.
    - now rewrite forallb_app, H1, Hmid. }
  assert (Hlast : forall b : bool,
             always (cleanup ;; ret b) (fun _ ev =>
                exists mid, ev = mid ++ [SpiClose; GpioCleanup] /\
                            forallb keeps_bus mid = true)).
  { intros b. eapply always_conseq; [apply Hend|].
    intros _ ev ->. exists []. split; reflexivity. }
  eapply always_conseq with
    (P := fun _ ev => exists mid, ev = mid ++ [SpiClose; GpioCleanup] /\
                                  forallb keeps_bus mid = true).
  2:{ intros ok ev (mid & -> & Hmid). exists mid. split; [reflexivity | exact Hmid]. }
  apply Hseq; [now apply only_init | intros ok].
  destruct ok; cbn [negb]; [|apply Hlast].
  apply Hseq; [keep_bus | intros _].
  apply Hseq; [now apply only_clear | intros _].
  apply Hseq; [keep_bus | intros _].
  apply Hseq; [now apply only_draw_test_pattern | intros _].
  apply Hseq; [now apply only_sleep | intros _].
  apply Hlast.
Qed.

Lemma always_main_stuck :
  (451 <= fuel)%nat -> always main (fun ok _ => pin_stuck -> ok = false).
Proof.
  intros Hfuel. unfold main.
  apply always_after; [unfold __init__; eapply always_true, always_emit | intros _].
  eapply always_bind with (P := fun ok _ => pin_stuck -> ok = false).
  - unfold init.
    do 10 (apply always_after; [eapply always_true, always_emit | intros _]).
    apply always_after; [eapply always_true, always_reset | intros _].
    apply always_after; [eapply always_true, always_send_command | intros _].
    eapply always_bind; [apply always_wait_stuck; lia | cbv beta; intros idle _ Hidle].
    destruct idle; cbn [negb].
    + eapply always_conseq with (P := fun _ _ => True).
      * eapply always_true, (says_eq _ (fun b => b = true)); [talk | reflexivity].
      * intros ok _ _ Hstuck. discriminate (Hidle Hstuck).
    + apply always_ret. trivial.
  - cbv beta. intros ok _ Hok. destruct ok; cbn [negb].
    + eapply always_conseq with (P := fun _ _ => True).
      * eapply always_true, talks_bind; [apply talks_time_sleep | intros _].
        eapply talks_bind; [apply talks_clear, Hfuel | intros _].
        eapply talks_bind; [apply talks_time_sleep | intros _].
        eapply talks_bind; [apply talks_draw_test_pattern, Hfuel | intros _].
        eapply talks_bind; [apply talks_sleep, Hfuel | intros _].
        eapply talks_bind; [apply talks_cleanup | intros _].
        apply talks_ret.
      * intros ok _ _ Hstuck. discriminate (Hok Hstuck).
    + eapply always_bind; [apply always_cleanup | cbv beta; intros _ _ _].
      apply always_ret. trivial.
Qed.

(** ** Counting the bytes of a plane *)

Lemma length_arange n : forall i step, length (arange n i step) = n.
Proof. induction n as [|n IH]; intros i step; cbn [arange length]; [reflexivity | now rewrite IH]. Qed.

Lemma data_count_app a b : data_count (a ++ b) = data_count a + data_count b.
Proof. unfold data_count. rewrite List.filter_app, List.length_app. lia. Qed.

Lemma data_count_bytes {A} (f : A -> Z) l :
  data_count (flat_map (fun i => [Data (f i)]) l) = Z.of_nat (length l).
Proof.
  unfold data_count. induction l as [|a l IH]; [reflexivity|].
  cbn [flat_map app List.filter is_command negb length]. lia.
Qed.

Lemma data_count_white_plane : data_count white_plane = EPD_WIDTH * EPD_HEIGHT / pixels_per_byte.
Proof.
  unfold white_plane. rewrite (data_count_bytes (fun _ => 0x11)), length_arange.
  unfold range_len. rewrite Z2Nat.id; [vm_compute; reflexivity | vm_compute; congruence].
Qed.

Lemma data_count_pattern_plane pixel_data :
  data_count (pattern_plane pixel_data) = EPD_WIDTH * EPD_HEIGHT / pixels_per_byte.
Proof.
  unfold pattern_plane.
  assert (Hrows : forall rows : list Z,
             data_count (flat_map (fun y =>
               flat_map (fun x => [Data (pixel_data y)])
                        (arange (range_len EPD_WIDTH pixels_per_byte) 0 pixels_per_byte)) rows) =
             Z.of_nat (length rows) * Z.of_nat (range_len EPD_WIDTH pixels_per_byte)).
  { induction rows as [|y rows IH]; [reflexivity|].
    cbn [flat_map length]. rewrite data_count_app, IH.
    rewrite (data_count_bytes (fun _ => pixel_data y)), length_arange. lia. }
  rewrite Hrows, length_arange. unfold range_len.
  rewrite !Z2Nat.id; [vm_compute; reflexivity | vm_compute; congruence ..].
Qed.

(** ** More about the driver *)

(** X1.  [_wait_until_idle] does not block much longer than its timeout:
    when it returns [True] at most the timeout has passed on the script's
    clock, when it returns [False] more than the timeout, but at most
    the timeout plus the 100 ms of the last sleep and by what that sleep
    overshot. *)
Theorem wait_until_idle_deadline (timeout_ms : Z) (w : world) :
  Z.max 0 timeout_ms < 100 * Z.of_nat fuel ->
  exists r w',
    _wait_until_idle timeout_ms w = Some (r, w') /\
    (r = true -> now w' - now w <= Z.max 0 timeout_ms) /\
    (r = false ->
       timeout_ms < now w' - now w <=
       Z.max 0 timeout_ms + 100 + Z.of_N (lag (Nat.pred (naps w')))).
Proof.
  intros Hfuel.
  destruct (wait_until_idle_runs timeout_ms w Hfuel)
    as (k & r & w' & [Hrun _] & _ & _ & Hfalse & _).
  exists r, w'. split; [exact Hrun|].
  assert (Hloop : wait_loop fuel (now w) timeout_ms w = Some (r, w')) by exact Hrun.
  destruct (wait_loop_deadline fuel (now w) timeout_ms w r w' Hloop) as [Htrue Hlate]; [lia|].
  split; [exact Htrue|]. intros Hr. split; [now apply Hfalse | now apply Hlate].
Qed.

(** X2.  If the busy pin never reads low, [init] gives up after the
    power-on command: [main] returns [False], the panel has been sent the
    single command [0x04] and nothing else, and the bus and the pins are
    released. *)
Theorem stuck_panel_aborts_main (w : world) :
  (451 <= fuel)%nat ->
  pin_stuck ->
  exists w' k,
    main w = Some (false, w') /\
    trace w' = trace w ++ [SpiOpen] ++ init_config_events ++ reset_events ++
                          power_on_events k false [SpiClose; GpioCleanup] /\
    forall dc,
      bus_view dc ([SpiOpen] ++ init_config_events ++ reset_events ++
                   power_on_events k false [SpiClose; GpioCleanup]) = [Command 0x04].
Proof.
  intros Hfuel Hstuck.
  destruct (always_main Hfuel w)
    as (ok & ev & w' & [Hrun Htr] & _ & k & rest & -> & Hsh & Hrest).
  destruct (always_main_stuck Hfuel w) as (ok2 & ev2 & w2 & [Hrun2 _] & Hok2).
  rewrite Hrun in Hrun2. injection Hrun2 as <- <-.
  rewrite (Hok2 Hstuck) in *. rewrite (Hrest eq_refl) in *.
  exists w', k. split; [exact Hrun|]. split; [exact Htr|].
  intros dc. rewrite 2!app_assoc.
  assert (Hv : shape ((([SpiOpen] ++ init_config_events) ++ reset_events) ++
                      power_on_events k false [SpiClose; GpioCleanup])
                     ([] ++ main_messages false)).
  { apply shape_app; [|now apply shape_main_run]. rewrite <- app_assoc. apply shape_boot_prefix. }
  destruct Hv as [_ Hv]. now rewrite Hv.
Qed.

(** X3.  [main] opens the SPI device first and releases bus and pins
    last, whether [init] succeeds or not; in between the device is
    neither opened nor closed, so every transfer goes to an open
    device. *)
Theorem main_releases_hardware (w : world) :
  (451 <= fuel)%nat ->
  exists ok w' mid,
    main w = Some (ok, w') /\
    trace w' = trace w ++ [SpiOpen] ++ mid ++ [SpiClose; GpioCleanup] /\
    forallb keeps_bus mid = true.
Proof.
  intros Hfuel.
  destruct (always_main_bracket Hfuel w) as (ok & ev & w' & [Hrun Htr] & mid & -> & Hmid).
  exists ok, w', mid. auto.
Qed.

(** X4.  [clear] and [draw_test_pattern] send the same frame: [0x10],
    one data byte for every four pixels of the display, [0x13], as many
    data bytes again, and [0x12].  The nested loops over rows and groups
    of four columns produce exactly as many bytes as the flat loop of
    [clear]. *)
Theorem planes_cover_the_display (pixel_data : Z -> Z) :
  (451 <= fuel)%nat ->
  talks clear ([Command 0x10] ++ white_plane ++ [Command 0x13] ++ white_plane ++
               [Command 0x12]) /\
  talks draw_test_pattern
        ([Command 0x10] ++ pattern_plane pixel_data_first ++
         [Command 0x13] ++ pattern_plane pixel_data_second ++ [Command 0x12]) /\
  data_count white_plane = EPD_WIDTH * EPD_HEIGHT / 4 /\
  data_count (pattern_plane pixel_data) = EPD_WIDTH * EPD_HEIGHT / 4 /\
  EPD_WIDTH * EPD_HEIGHT / 4 = 480000 /\
  commands white_plane = [] /\
  commands (pattern_plane pixel_data) = [].
Proof.
  intros Hfuel.
  split; [now apply talks_clear|]. split; [now apply talks_draw_test_pattern|].
  split; [apply data_count_white_plane|]. split; [apply data_count_pattern_plane|].
  split; [reflexivity|]. split; [apply commands_white_plane | apply commands_pattern_plane].
Qed.

(** X5.  In the four upper stripes the byte of a row is [0x55] times its
    colour code, that is [0x00], [0x55], [0xAA] or [0xFF], and its four
    two-bit fields all hold the code.  The byte [0x11] with which [clear]
    fills the display is none of these: in the layout of
    [draw_test_pattern] it holds the codes 0, 1, 0, 1. *)
Theorem upper_stripe_bytes (y : Z) :
  0 <= y < 4 * rect_height ->
  pixel_data_first y = 0x55 * (y / 200) /\
  unpack (pixel_data_first y) = [y / 200; y / 200; y / 200; y / 200] /\
  pixel_data_first y <> 0x11 /\
  unpack 0x11 = [0; 1; 0; 1] /\
  forall m, In m white_plane -> m = Data 0x11.
Proof.
  clear. intros Hy.
  assert (Hwhite : forall m, In m white_plane -> m = Data 0x11).
  { intros m Hm. unfold white_plane in Hm. apply List.in_flat_map in Hm.
    destruct Hm as (i & _ & [<- | []]). reflexivity. } unfold rect_height, EPD_HEIGHT in Hy. change (1200 / 6) with 200 in Hy.
  assert (Hc : color_first y = Z.min (y / 200) 5)
    by (apply color_first_stripe; unfold EPD_HEIGHT; lia).
  assert (Hq : y / 200 = 0 \/ y / 200 = 1 \/ y / 200 = 2 \/ y / 200 = 3)
    by (Z.to_euclidean_division_equations; lia).
  unfold pixel_data_first. rewrite pack_unfold, Hc.
  destruct Hq as [-> | [-> | [-> | ->]]];
    (split; [reflexivity|]; split; [reflexivity|]; split; [discriminate|];
     split; [reflexivity | exact Hwhite]).
Qed.

End Driver.

(** ** Concrete runs *)

Lemma main_command_sequence_witness :
  (451 <= 451)%nat /\
  exists ok w', @main ready_panel boot = Some (ok, w').
Proof.
  split; [lia|].
  destruct (@main_command_sequence ready_panel boot) as (ok & w' & k & rest & H & _);
    [cbn; lia|].
  exists ok, w'. exact H.
Defined.

(** C2 as stated fails on a run in which every wait succeeds: the two
    transmissions and the refresh are on the wire twice. *)
Lemma claimed_sequence_omits_second_transmission :
  exists w',
    @main ready_panel boot = Some (true, w') /\
    commands (bus_view LOW (trace w')) <>
      [0x04; 0x00; 0x61; 0x10; 0x13; 0x12; 0x02; 0x07].
Proof.
  assert (Hfuel : (451 <= 451)%nat) by lia.
  destruct (@always_main ready_panel Hfuel boot)
    as (ok & ev & w' & [Hrun Htr] & Hok & k & rest & -> & Hsh & _).
  assert (ok = true) as -> by (apply Hok; intros j; reflexivity).
  exists w'. split; [exact Hrun|].
  rewrite Htr. cbn [trace boot]. rewrite app_nil_l, 2!app_assoc.
  assert (Hv : shape ((([SpiOpen] ++ init_config_events) ++ reset_events) ++
                      power_on_events k true rest)
                     ([] ++ main_messages true)).
  { apply shape_app; [|now apply shape_main_run]. rewrite <- app_assoc. apply shape_boot_prefix. }
  destruct Hv as [_ Hv]. rewrite Hv, app_nil_l, commands_main_messages.
  discriminate.
Qed.

Lemma wait_until_idle_polls_witness :
  Z.max 0 30000 < 100 * Z.of_nat 451 /\
  exists r w', @_wait_until_idle slow_panel 30000 boot = Some (r, w').
Proof.
  split; [lia|].
  destruct (@wait_until_idle_polls slow_panel 30000 boot) as [(k & r & w' & H & _) _];
    [reflexivity|].
  exists r, w'. exact H.
Defined.

Lemma test_pattern_stripes_witness :
  (451 <= 451)%nat /\ 0 <= 800 < EPD_HEIGHT /\ color_first 800 = Z.min (800 / 200) 5.
Proof.
  assert (Hfuel : (451 <= 451)%nat) by lia.
  assert (Hy : 0 <= 800 < EPD_HEIGHT) by (unfold EPD_HEIGHT; lia).
  split; [exact Hfuel|]. split; [exact Hy|].
  exact (proj1 (proj2 (@test_pattern_stripes ready_panel 800 Hfuel Hy))).
Defined.

Lemma dc_line_discipline_witness :
  (451 <= 451)%nat /\
  always (@main ready_panel) (fun ok ev => disciplined ev (main_messages ok)).
Proof.
  assert (Hfuel : (451 <= 451)%nat) by lia.
  split; [exact Hfuel|].
  apply (@dc_line_discipline ready_panel Hfuel).
Defined.


Lemma wait_until_idle_deadline_witness :
  Z.max 0 30000 < 100 * Z.of_nat 451 /\
  exists r w', @_wait_until_idle slow_panel 30000 boot = Some (r, w') /\
               (r = true -> now w' - now boot <= 30000).
Proof.
  split; [lia|].
  destruct (@wait_until_idle_deadline slow_panel 30000 boot) as (r & w' & H & Ht & _);
    [reflexivity|].
  exists r, w'. split; [exact H | exact Ht].
Defined.

Lemma stuck_panel_aborts_main_witness :
  (451 <= 451)%nat /\ @pin_stuck stuck_panel /\
  exists w', @main stuck_panel boot = Some (false, w').
Proof.
  assert (Hfuel : (451 <= 451)%nat) by lia.
  assert (Hstuck : @pin_stuck stuck_panel) by (intros k; reflexivity).
  split; [exact Hfuel|]. split; [exact Hstuck|].
  destruct (@stuck_panel_aborts_main stuck_panel boot Hfuel Hstuck) as (w' & k & H & _).
  exists w'. exact H.
Defined.

Lemma main_releases_hardware_witness :
  (451 <= 451)%nat /\ exists ok w', @main slow_panel boot = Some (ok, w').
Proof.
  assert (Hfuel : (451 <= 451)%nat) by lia.
  split; [exact Hfuel|].
  destruct (@main_releases_hardware slow_panel boot Hfuel) as (ok & w' & mid & H & _).
  exists ok, w'. exact H.
Defined.

Lemma planes_cover_the_display_witness :
  (451 <= 451)%nat /\ data_count (pattern_plane pixel_data_first) = 480000.
Proof.
  assert (Hfuel : (451 <= 451)%nat) by lia.
  split; [exact Hfuel|].
  exact (proj1 (proj2 (proj2 (proj2
    (@planes_cover_the_display ready_panel pixel_data_first Hfuel))))).
Defined.

Lemma upper_stripe_bytes_witness :
  0 <= 450 < 4 * rect_height /\ pixel_data_first 450 = 0x55 * (450 / 200).
Proof.
  assert (Hy : 0 <= 450 < 4 * rect_height) by (vm_compute; split; congruence).
  split; [exact Hy|].
  exact (proj1 (upper_stripe_bytes 450 Hy)).
Defined.

End epaper_test_spec.

(* ===================================================================== *)
(** * Pin assignments across the scripts                                  *)
(* ===================================================================== *)

(** C8.  [epaper_test.py] and [display_diagnostic.py] agree on reset 17,
    data/command 25 and busy 24; [simple_test.py] has 11, 22 and 18, and
    so differs from [epaper_test.py] in each of the three roles. *)
Theorem pin_assignments_conflict :
  (epaper_test.RST_PIN = 17 /\ epaper_test.DC_PIN = 25 /\ epaper_test.BUSY_PIN = 24) /\
  (display_diagnostic.RST_PIN = 17 /\ display_diagnostic.DC_PIN = 25 /\
   display_diagnostic.BUSY_PIN = 24) /\
  (simple_test.RST_PIN = 11 /\ simple_test.DC_PIN = 22 /\ simple_test.BUSY_PIN = 18) /\
  simple_test.RST_PIN <> epaper_test.RST_PIN /\
  simple_test.DC_PIN <> epaper_test.DC_PIN /\
  simple_test.BUSY_PIN <> epaper_test.BUSY_PIN.
Proof. repeat split; discriminate. Qed.

(* ===================================================================== *)
(** * Properties of [simple_test.py]                                      *)
(* ===================================================================== *)

Module simple_test_spec.

Import epaper_test(level(..), direction(..), event(..), world(..), trace, now, reads,
                   naps, Environment(..), lag_sum).
Import simple_test.

Section Script.

Context {panel : Environment}.

(** X13.  [main] of [simple_test.py] returns [True] whatever the busy
    pin reads, after three readings of it and 502 ms of sleep.  It puts
    two bytes on the bus, both the power-on command [0x04] with DC low:
    the first while only the master controller is selected, the second
    while only the slave is.  Both chip selects are high again when the
    bus is closed; [GPIO.cleanup] comes last, and after it the script
    drives no line. *)
Theorem simple_test_selects_one_chip (w : world) :
  exists w' ev,
    main w = Some (true, w') /\
    trace w' = trace w ++ ev /\
    reads w' = (reads w + 3)%nat /\
    now w' = now w + 502 + lag_sum (naps w) 4 /\
    (forall s, bus_bytes s ev =
       [(0x04, {| rst := Some HIGH; dc := Some LOW; cs_m := Some LOW; cs_s := Some HIGH |});
        (0x04, {| rst := Some HIGH; dc := Some LOW; cs_m := Some HIGH; cs_s := Some LOW |})]) /\
    exists mid,
      ev = mid ++ [SpiClose; GpioCleanup] /\
      (forall s, lines_after s mid =
         {| rst := Some HIGH; dc := Some LOW; cs_m := Some HIGH; cs_s := Some HIGH |}) /\
      (forall s, lines_after s ev = released).
Proof.
  destruct w as [tr t r n].
  cbv beta iota zeta delta [main init_gpio test_pins test_spi_communication
    epaper_test.bind epaper_test.emit epaper_test.GPIO_output epaper_test.GPIO_setup
    epaper_test.GPIO_input epaper_test.time_sleep epaper_test.ret trace now reads naps].
  eexists _, _. split; [reflexivity|].
  split; [rewrite <- !(app_assoc tr); reflexivity|].
  split; [lia|]. split; [cbn [lag_sum]; lia|].
  split; [intros s; reflexivity|].
  cbn [app].
  lazymatch goal with
  | |- exists mid, ?l = _ /\ _ => exists (removelast (removelast l))
  end.
  split; [reflexivity|]. split; intros s; reflexivity.
Qed.

End Script.

End simple_test_spec.

(* ===================================================================== *)
(** * Properties of [display_diagnostic.py]                               *)
(* ===================================================================== *)

Module display_diagnostic_spec.

Import epaper_test(level(..), direction(..), event(..), world(..), trace, now, reads,
                   naps, Environment(..), gpio_in, lag, lag_sum, level_eqb, level_eq_dec,
                   message(..), bus_view, shape, is_quiet, reset_pulse).
Import display_diagnostic.

Section Script.

Context {panel : Environment}.

Lemma lag_sum_app a : forall n b, lag_sum n (a + b) = lag_sum n a + lag_sum (n + a) b.
Proof.
  induction a as [|a IH]; intros n b; cbn [lag_sum Nat.add].
  - now rewrite Nat.add_0_r.
  - rewrite IH. replace (S n + a)%nat with (n + S a)%nat by lia. lia.
Qed.

Lemma quiet_steady_polls initial_busy k :
  forallb is_quiet (concat (repeat (steady_poll initial_busy) k)) = true.
Proof. induction k as [|k IH]; [reflexivity | exact IH]. Qed.

(** The loop in full: how many readings it makes before it is left,
    what they are, and what it does to the world. *)
Lemma monitor_spec count :
  forall initial_busy w, exists k w',
    monitor count initial_busy w = Some (tt, w') /\
    (k <= count)%nat /\
    (forall j, (j < k)%nat -> gpio_in BUSY_PIN (reads w + j) = initial_busy) /\
    ((k < count)%nat -> gpio_in BUSY_PIN (reads w + k) <> initial_busy) /\
    trace w' = trace w ++ concat (repeat (steady_poll initial_busy) k) ++
               (if (k <? count)%nat
                then [GpioInput BUSY_PIN (gpio_in BUSY_PIN (reads w + k))] else []) /\
    naps w' = (naps w + k)%nat /\
    reads w' = (reads w + k + if (k <? count)%nat then 1 else 0)%nat /\
    now w' = now w + 100 * Z.of_nat k + lag_sum (naps w) k.
Proof.
  induction count as [|count IH]; intros initial_busy w.
  - exists 0%nat, w. cbn [monitor repeat concat app Nat.ltb Nat.leb lag_sum].
    split; [reflexivity|]. split; [lia|]. split; [intros j Hj; lia|].
    split; [intros Hlt; lia|]. split; [now rewrite app_nil_r|].
    split; [lia|]. split; lia.
  - cbn [monitor]. unfold epaper_test.bind at 1, epaper_test.GPIO_input at 1.
    unfold level_eqb. destruct (level_eq_dec (gpio_in BUSY_PIN (reads w)) initial_busy) as [E|E].
    + cbn [negb]. unfold epaper_test.bind at 1, epaper_test.time_sleep at 1.
      cbn [trace now reads naps].
      match goal with |- context [monitor count initial_busy ?w1] =>
        destruct (IH initial_busy w1) as (k & w' & Hrun & Hk & Hsame & Hdiff & Htr & Hn & Hr & Ht)
      end.
      cbn [trace now reads naps] in *.
      exists (S k), w'. split; [exact Hrun|]. split; [lia|].
      split; [|split; [|split; [|split; [|split]]]].
      * intros [|j] Hj; [now rewrite Nat.add_0_r|].
        replace (reads w + S j)%nat with (S (reads w) + j)%nat by lia. apply Hsame. lia.
      * intros Hlt. replace (reads w + S k)%nat with (S (reads w) + k)%nat by lia.
        apply Hdiff. lia.
      * rewrite Htr. cbn [repeat concat steady_poll]. rewrite E, <- !app_assoc.
        replace (S (reads w) + k)%nat with (reads w + S k)%nat by lia.
        change (S k <? S count)%nat with (k <? count)%nat. reflexivity.
      * lia.
      * rewrite Hr. change (S k <? S count)%nat with (k <? count)%nat. lia.
      * rewrite Ht. cbn [lag_sum]. lia.
    + cbn [negb]. eexists 0%nat, _. split; [reflexivity|].
      cbn [trace now reads naps repeat concat app lag_sum]. rewrite !Nat.add_0_r.
      split; [lia|]. split; [intros j Hj; lia|]. split; [intros _; exact E|].
      split; [reflexivity|]. split; [reflexivity|]. cbn [Nat.ltb Nat.leb]. split; lia.
Qed.

(** X14.  The loop that watches the busy pin after the power-on command
    makes at most [count] readings (100 in the script).  It is left at the
    first reading that differs from the initial one, without a sleep
    after it; before that every reading equals the initial one and is
    followed by a sleep of 100 ms, so that a pin that never changes costs
    [count] sleeps. *)
Theorem monitor_stops_at_first_change (count : nat) (initial_busy : level) (w : world) :
  exists k w',
    monitor count initial_busy w = Some (tt, w') /\
    (k <= count)%nat /\
    (forall j, (j < k)%nat -> gpio_in BUSY_PIN (reads w + j) = initial_busy) /\
    ((k < count)%nat -> gpio_in BUSY_PIN (reads w + k) <> initial_busy) /\
    (k = count <->
     forall j, (j < count)%nat -> gpio_in BUSY_PIN (reads w + j) = initial_busy) /\
    trace w' = trace w ++ concat (repeat (steady_poll initial_busy) k) ++
               (if (k <? count)%nat
                then [GpioInput BUSY_PIN (gpio_in BUSY_PIN (reads w + k))] else []) /\
    naps w' = (naps w + k)%nat /\
    now w' = now w + 100 * Z.of_nat k + lag_sum (naps w) k.
Proof.
  destruct (monitor_spec count initial_busy w)
    as (k & w' & Hrun & Hk & Hsame & Hdiff & Htr & Hn & _ & Ht).
  exists k, w'. split; [exact Hrun|]. split; [exact Hk|]. split; [exact Hsame|].
  split; [exact Hdiff|]. split; [|split; [exact Htr | split; [exact Hn | exact Ht]]].
  split.
  - intros <-. exact Hsame.
  - intros Hall. destruct (Nat.eq_dec k count) as [E|E]; [exact E|].
    exfalso. apply Hdiff; [lia | apply Hall; lia].
Qed.

(** The run of the reset test in full. *)
Lemma reset_test_runs (w : world) :
  exists k w' polls final_busy,
    test_display_reset_sequence w = Some (true, w') /\
    trace w' = trace w ++
      [GpioSetwarnings false; GpioSetmode; GpioSetup RST_PIN OUT; GpioSetup DC_PIN OUT;
       GpioSetup BUSY_PIN IN; SpiOpen; GpioInput BUSY_PIN (gpio_in BUSY_PIN (reads w))] ++
      reset_pulse RST_PIN ++
      [GpioInput BUSY_PIN (gpio_in BUSY_PIN (reads w + 1)); GpioOutput DC_PIN LOW;
       SpiXfer2 0x04; GpioInput BUSY_PIN (gpio_in BUSY_PIN (reads w + 2))] ++
      polls ++ [GpioInput BUSY_PIN final_busy; SpiClose; GpioCleanup] /\
    forallb is_quiet polls = true /\
    (k <= 100)%nat /\
    (k = 100%nat <->
     forall j, (j < 100)%nat ->
       gpio_in BUSY_PIN (reads w + 3 + j) = gpio_in BUSY_PIN (reads w + 2)) /\
    naps w' = (naps w + 3 + k)%nat /\
    now w' = now w + 402 + 100 * Z.of_nat k + lag_sum (naps w) (3 + k).
Proof.
  destruct w as [tr t r n].
  cbv beta iota zeta delta [test_display_reset_sequence epaper_test.bind epaper_test.emit
    epaper_test.GPIO_output epaper_test.GPIO_setup epaper_test.GPIO_input
    epaper_test.time_sleep epaper_test.time_time epaper_test.ret trace now reads naps].
  match goal with |- context [monitor 100 ?i ?w1] =>
    destruct (monitor_spec 100 i w1) as (k & w2 & Hrun & Hk & Hsame & Hdiff & Htr & Hn & Hr & Ht)
  end.
  destruct w2 as [tr2 t2 r2 n2].
  cbn [trace now reads naps] in Hsame, Hdiff, Htr, Hn, Hr, Ht.
  replace (S (S r)) with (r + 2)%nat in * by lia.
  replace (S (r + 2)) with (r + 3)%nat in * by lia.
  replace (S r) with (r + 1)%nat in * by lia.
  set (initial_busy := gpio_in BUSY_PIN (r + 2)) in *.
  exists k. rewrite Hrun. cbv beta iota.
  eexists.
  exists (concat (repeat (steady_poll initial_busy) k) ++
          (if (k <? 100)%nat
           then [GpioInput BUSY_PIN (gpio_in BUSY_PIN (r + 3 + k))] else [])).
  exists (gpio_in BUSY_PIN r2).
  split; [reflexivity|]. cbn [trace now reads naps].
  split; [rewrite Htr; rewrite <- !app_assoc; reflexivity|].
  split; [rewrite forallb_app, quiet_steady_polls; now destruct (k <? 100)%nat|].
  split; [exact Hk|]. split; [|split; [lia|]].
  - split.
    + intros ->. exact Hsame.
    + intros Hall. destruct (Nat.eq_dec k 100%nat) as [E|E]; [exact E|].
      exfalso. apply Hdiff; [lia | apply Hall; lia].
  - rewrite Ht. rewrite (lag_sum_app 3 n k). cbn [lag_sum].
    replace (n + 3)%nat with (S (S (S n))) by lia. lia.
Qed.

(** X15.  [test_display_reset_sequence] returns [True] whatever the busy
    pin reads, also when it never changes: then the loop runs its 100
    sleeps, ten seconds and more.  The panel is sent the single command
    [0x04]; the bus is closed and the pins are released at the end. *)
Theorem reset_sequence_test_always_passes (w : world) :
  exists k w' ev,
    test_display_reset_sequence w = Some (true, w') /\
    trace w' = trace w ++ ev /\
    (k <= 100)%nat /\
    (k = 100%nat <->
     forall j, (j < 100)%nat ->
       gpio_in BUSY_PIN (reads w + 3 + j) = gpio_in BUSY_PIN (reads w + 2)) /\
    naps w' = (naps w + 3 + k)%nat /\
    now w' = now w + 402 + 100 * Z.of_nat k + lag_sum (naps w) (3 + k) /\
    (forall dc, bus_view dc ev = [Command 0x04]) /\
    exists mid, ev = mid ++ [SpiClose; GpioCleanup].
Proof.
  destruct (reset_test_runs w)
    as (k & w' & polls & final_busy & Hrun & Htr & Hquiet & Hk & Hall & Hn & Ht).
  exists k, w'. eexists. split; [exact Hrun|]. split; [exact Htr|].
  split; [exact Hk|]. split; [exact Hall|]. split; [exact Hn|]. split; [exact Ht|].
  split.
  - intros dc. rewrite !app_assoc.
    match goal with |- bus_view dc ((?pre ++ polls) ++ ?post) = _ =>
      assert (Hpre : shape pre [Command 0x04])
        by (split; [reflexivity | intros dc'; reflexivity]);
      assert (Hpost : shape post []) by (split; [reflexivity | intros dc'; reflexivity])
    end.
    exact (proj2 (epaper_test_spec.shape_app _ _ _ _
                    (epaper_test_spec.shape_app _ _ _ _ Hpre
                       (epaper_test_spec.shape_quiet _ Hquiet)) Hpost) dc).
  - rewrite !app_assoc.
    match goal with |- exists mid, (?pre ++ [?a; ?b; ?c]) = _ =>
      exists (pre ++ [a]); rewrite <- (app_assoc pre [a] [b; c]); reflexivity
    end.
Qed.

End Script.

End display_diagnostic_spec.

(* ===================================================================== *)
(** * The reset sequence across the scripts                               *)
(* ===================================================================== *)

Module reset_sequence_spec.

Import epaper_test(level(..), direction(..), event(..), world(..), trace, now, reads,
                   naps, Environment(..), gpio_in, lag, lag_sum, reset_pulse, is_xfer).

Section Scripts.

Context {panel : Environment}.

(** X16.  The three scripts reset the panel with the same pulse, high
    for 200 ms, low for 2 ms, high for 200 ms: [_reset] of
    [epaper_test.py] and [test_display_reset_sequence] on pin 17,
    [test_pins] of [simple_test.py] on pin 11, there between two readings
    of the busy pin.  In the reset test nothing is sent on the bus before
    the pulse. *)
Theorem reset_pulse_is_shared (w : world) :
  (exists w',
     epaper_test._reset w = Some (tt, w') /\
     trace w' = trace w ++ reset_pulse epaper_test.RST_PIN /\
     now w' = now w + 402 + lag_sum (naps w) 3) /\
  (exists w',
     simple_test.test_pins w = Some (true, w') /\
     trace w' = trace w ++
       [GpioInput simple_test.BUSY_PIN (gpio_in simple_test.BUSY_PIN (reads w))] ++
       reset_pulse simple_test.RST_PIN ++
       [GpioInput simple_test.BUSY_PIN (gpio_in simple_test.BUSY_PIN (S (reads w)))] /\
     now w' = now w + 402 + lag_sum (naps w) 3) /\
  (exists w' pre post,
     display_diagnostic.test_display_reset_sequence w = Some (true, w') /\
     trace w' = trace w ++ pre ++ reset_pulse display_diagnostic.RST_PIN ++ post /\
     existsb is_xfer pre = false) /\
  reset_pulse display_diagnostic.RST_PIN = reset_pulse epaper_test.RST_PIN /\
  reset_pulse simple_test.RST_PIN <> reset_pulse epaper_test.RST_PIN.
Proof.
  split; [|split; [|split; [|split; [reflexivity | discriminate]]]].
  - destruct w as [tr t r n].
    cbv beta iota zeta delta [epaper_test._reset epaper_test.bind epaper_test.emit
      epaper_test.GPIO_output epaper_test.time_sleep trace now reads naps].
    eexists. split; [reflexivity|].
    split; [rewrite <- !(app_assoc tr); reflexivity | cbn [lag_sum]; lia].
  - destruct w as [tr t r n].
    cbv beta iota zeta delta [simple_test.test_pins epaper_test.bind epaper_test.emit
      epaper_test.GPIO_output epaper_test.GPIO_input epaper_test.time_sleep epaper_test.ret
      trace now reads naps].
    eexists. split; [reflexivity|].
    split; [rewrite <- !(app_assoc tr); reflexivity | cbn [lag_sum]; lia].
  - destruct (display_diagnostic_spec.reset_test_runs w)
      as (k & w' & polls & final_busy & Hrun & Htr & _).
    exists w'. eexists _, _. split; [exact Hrun|]. split; [exact Htr | reflexivity].
Qed.

End Scripts.

End reset_sequence_spec.

(* ===================================================================== *)
(** * Properties of the flag cache                                        *)
(* ===================================================================== *)

Module fetch_flags_spec.

Import fetch_flags.
Local Open Scope string_scope.
Local Open Scope Z_scope.
Local Open Scope flags_scope.

Section Script.

Context {outside : Outside}.

(** ** Paths *)

Lemma last_char_app s t : t <> EmptyString -> last_char (s +:+ t) = last_char t.
Proof.
  intros Ht. induction s as [|c s IH]; [reflexivity|].
  change (String c s +:+ t) with (String c (s +:+ t)).
  destruct (s +:+ t) as [|a r] eqn:E.
  - destruct s; [exfalso; apply Ht; exact E | discriminate].
  - exact IH.
Qed.

Lemma last_char_path_join directory name :
  name <> EmptyString -> last_char (path_join directory name) = last_char name.
Proof.
  intros Hn. unfold path_join.
  destruct name as [|c name]; [congruence|].
  assert (H : last_char (directory +:+ "/" +:+ String c name) = last_char (String c name)).
  { rewrite last_char_app; [|discriminate]. now rewrite (last_char_app "/"). }
  destruct c as [[] [] [] [] [] [] [] []]; try exact H. reflexivity.
Qed.

Lemma append_nonempty s t : t <> EmptyString -> s +:+ t <> EmptyString.
Proof. intros Ht. destruct s; [exact Ht | discriminate]. Qed.

Lemma string_app_assoc a b c : (a +:+ b) +:+ c = a +:+ (b +:+ c).
Proof.
  induction a as [|x a IH]; [reflexivity|].
  change (String x ((a +:+ b) +:+ c) = String x (a +:+ (b +:+ c))). now rewrite IH.
Qed.

Lemma path_join_cases directory name :
  (exists rest, name = String "/"%char rest /\ path_join directory name = name) \/
  ((forall rest, name <> String "/"%char rest) /\
   path_join directory name = directory +:+ "/" +:+ name).
Proof.
  destruct name as [|c name]; [right; split; [discriminate | reflexivity]|].
  destruct (Ascii.eqb_spec c "/"%char) as [-> | Hc].
  - left. exists name. split; reflexivity.
  - right. split; [intros rest E; injection E as E _; contradiction|].
    unfold path_join.
    destruct c as [[] [] [] [] [] [] [] []]; try reflexivity. contradiction Hc; reflexivity.
Qed.

(** A path made from a name that ends in an extension ends in it. *)
Lemma path_join_suffix directory x ext :
  exists q, path_join directory (x +:+ ext) = q +:+ ext.
Proof.
  destruct (path_join_cases directory (x +:+ ext)) as [(r & _ & ->) | [_ ->]].
  - now exists x.
  - exists (directory +:+ "/" +:+ x). now rewrite !string_app_assoc.
Qed.

Lemma segments_app s t :
  segments t = [t] ->
  exists init lst, segments s = (init ++ [lst])%list /\
                   segments (s +:+ t) = (init ++ [lst +:+ t])%list.
Proof.
  intros Ht. induction s as [|c s (init & lst & Hs & Hst)].
  - exists [], "". split; [reflexivity | exact Ht].
  - change (String c s +:+ t) with (String c (s +:+ t)). cbn [segments]. rewrite Hs, Hst.
    destruct (Ascii.eqb c "/").
    + exists ("" :: init), lst. split; reflexivity.
    + destruct init as [|seg init]; cbn [app].
      * exists [], (String c lst). split; reflexivity.
      * exists (String c seg :: init), lst. split; reflexivity.
Qed.

Lemma walk_name dir name c :
  last_char name = Some c -> c <> "."%char -> walk dir name = name :: dir.
Proof.
  intros Hl Hc. unfold walk.
  destruct (String.eqb_spec name "") as [-> | _]; [discriminate|].
  destruct (String.eqb_spec name ".") as [-> | _]; [cbn in Hl; congruence|].
  destruct (String.eqb_spec name "..") as [-> | _]; [cbn in Hl; congruence|].
  reflexivity.
Qed.

(** The location of a path that ends in an extension ends in a name with
    that extension: no [.] or [..] in the path can take it away. *)
Lemma locate_last q ext c :
  segments ext = [ext] -> last_char ext = Some c -> c <> "."%char ->
  exists name, last (locate (q +:+ ext)) = Some name /\ last_char name = Some c.
Proof.
  intros Hseg Hl Hc. destruct (segments_app q ext Hseg) as (init & lst & _ & Hs).
  assert (Hname : last_char (lst +:+ ext) = Some c).
  { rewrite last_char_app; [exact Hl|]. intros ->. discriminate. }
  exists (lst +:+ ext). split; [|exact Hname].
  unfold locate, locate_from. rewrite Hs, fold_left_app. cbn [fold_left].
  rewrite (walk_name _ _ c Hname Hc). cbn [rev]. apply last_snoc.
Qed.

Lemma locate_bmp id :
  exists name, last (locate (bmp_path_of id)) = Some name /\ last_char name = Some "p"%char.
Proof.
  unfold bmp_path_of. destruct (path_join_suffix FLAGS_DIR id ".bmp") as [q ->].
  apply locate_last; [reflexivity | reflexivity | discriminate].
Qed.

Lemma locate_json id :
  exists name, last (locate (json_path_of id)) = Some name /\ last_char name = Some "n"%char.
Proof.
  unfold json_path_of. destruct (path_join_suffix INFO_DIR id ".json") as [q ->].
  apply locate_last; [reflexivity | reflexivity | discriminate].
Qed.

(** A BMP and a metadata file are never the same file, and no BMP is the
    index. *)
Lemma bmp_not_json id id' : locate (bmp_path_of id) <> locate (json_path_of id').
Proof.
  intros E. destruct (locate_bmp id) as (a & Ha & Hp). destruct (locate_json id') as (b & Hb & Hn).
  rewrite E, Hb in Ha. injection Ha as ->. congruence.
Qed.

Lemma json_not_bmp id id' : locate (json_path_of id') <> locate (bmp_path_of id).
Proof. intros E. symmetry in E. revert E. apply bmp_not_json. Qed.

Lemma bmp_not_index id : locate (bmp_path_of id) <> locate index_path.
Proof. change index_path with (json_path_of "index"). apply bmp_not_json. Qed.

(** ** Images *)

Lemma length_zrange n : length (zrange n) = Z.to_nat n.
Proof. unfold zrange. now rewrite List.length_map, List.length_seq. Qed.

Lemma length_getdata img :
  length (getdata img) = (Z.to_nat (height img) * Z.to_nat (width img))%nat.
Proof.
  unfold getdata. rewrite <- (length_zrange (height img)).
  induction (zrange (height img)) as [|y l IH]; [reflexivity|].
  cbn [flat_map]. rewrite List.length_app, IH, List.length_map, length_zrange.
  reflexivity.
Qed.

Lemma getdata_Image_new w h color : Forall (fun c => c = color) (getdata (Image_new w h color)).
Proof.
  unfold getdata. cbn [width height getpixel Image_new].
  assert (Hrow : forall l' : list Z, Forall (fun c => c = color) (map (fun _ => color) l')).
  { induction l' as [|x l' IH']; cbn [map]; constructor; [reflexivity | exact IH']. }
  induction (zrange h) as [|y l IH]; [constructor|].
  cbn [flat_map]. apply Forall_app. split; [apply Hrow | exact IH].
Qed.

Lemma filter_Forall {A} (P : A -> Prop) `{forall x, Decision (P x)} (l : list A) :
  Forall P l -> filter P l = l.
Proof.
  induction 1 as [|x l Hx Hl IH]; [reflexivity|].
  rewrite filter_cons_True by exact Hx. now rewrite IH.
Qed.

(** A canvas filled with one colour other than white has no background
    pixel. *)
Lemma non_background_uniform w h color :
  0 <= w -> 0 <= h -> color <> background_color ->
  non_background_pixels (Image_new w h color) = w * h.
Proof.
  intros Hw Hh Hc. unfold non_background_pixels.
  rewrite filter_Forall.
  - rewrite length_getdata. cbn [width height Image_new]. lia.
  - eapply Forall_impl; [apply getdata_Image_new|]. now intros c ->.
Qed.

(** ** The cache check *)

Lemma flag_needs_update_iff (fs : gmap (list string) file) (bmp_path : string) :
  flag_needs_update fs bmp_path = true <->
  read_file fs bmp_path = None \/
  (exists other, read_file fs bmp_path = Some other /\ open_image other = None) \/
  (exists img, read_file fs bmp_path = Some (ImageFile img) /\
     (width img <> 800 \/ height img <> 480 \/
      2 * non_background_pixels img < 800 * 480)).
Proof.
  unfold flag_needs_update, screen_width, screen_height.
  destruct (read_file fs bmp_path) as [[img| |]|].
  - cbn [open_image].
    destruct (Z.eqb_spec (width img) 800) as [Hw|Hw];
      destruct (Z.eqb_spec (height img) 480) as [Hh|Hh]; cbn [negb orb].
    + rewrite Hw, Hh.
      destruct (Z.ltb_spec (2 * non_background_pixels img) (800 * 480)) as [Hn|Hn].
      * split; [|reflexivity]. intros _. right. right. exists img. auto.
      * split; [discriminate|].
        intros [H|[(other & H & Ho)|(img' & H & Himg)]]; try discriminate.
        -- injection H as <-. discriminate.
        -- injection H as <-. destruct Himg as [?|[?|?]]; [congruence | congruence | lia].
    + split; [|reflexivity]. intros _. right. right. exists img. auto.
    + split; [|reflexivity]. intros _. right. right. exists img. auto.
    + split; [|reflexivity]. intros _. right. right. exists img. auto.
  - split; [|reflexivity]. intros _. right. left. eexists. split; reflexivity.
  - split; [|reflexivity]. intros _. right. left. eexists. split; reflexivity.
  - split; [|reflexivity]. intros _. now left.
Qed.

(** The check looks at nothing but the file at the path. *)
Lemma flag_needs_update_lookup (fs fs' : gmap (list string) file) bmp_path :
  fs' !! locate bmp_path = fs !! locate bmp_path ->
  flag_needs_update fs' bmp_path = flag_needs_update fs bmp_path.
Proof. unfold flag_needs_update, read_file. now intros ->. Qed.

Lemma valid_flag_is_canvas (fs : gmap (list string) file) bmp_path :
  flag_needs_update fs bmp_path = false ->
  exists img, reachable bmp_path = true /\
              fs !! locate bmp_path = Some (ImageFile img) /\
              width img = 800 /\ height img = 480 /\
              800 * 480 <= 2 * non_background_pixels img.
Proof.
  unfold flag_needs_update, read_file, screen_width, screen_height.
  destruct (reachable bmp_path); [|discriminate].
  destruct (fs !! locate bmp_path) as [[img| |]|]; cbn [open_image]; try discriminate.
  destruct (Z.eqb_spec (width img) 800) as [Hw|Hw]; [|discriminate].
  destruct (Z.eqb_spec (height img) 480) as [Hh|Hh]; [|discriminate].
  cbn [negb orb]. rewrite Hw, Hh.
  destruct (Z.ltb_spec (2 * non_background_pixels img) (800 * 480)); [discriminate|].
  intros _. exists img. auto.
Qed.

(** What the check comes to for a file that is a canvas. *)
Lemma canvas_needs_update (fs : gmap (list string) file) bmp_path img :
  reachable bmp_path = true ->
  fs !! locate bmp_path = Some (ImageFile img) ->
  width img = 800 -> height img = 480 ->
  flag_needs_update fs bmp_path = (2 * non_background_pixels img <? 800 * 480).
Proof.
  intros Hr Hl Hw Hh. unfold flag_needs_update, read_file, screen_width, screen_height.
  rewrite Hr, Hl. cbn [open_image]. rewrite Hw, Hh. cbn [Z.eqb Pos.eqb negb orb].
  now destruct (2 * non_background_pixels img <? 800 * 480).
Qed.

(** ** The download *)


Lemma downloaded_is_canvas k url canvas :
  downloaded k url = Some canvas ->
  sent (fetch k url) = true /\ width canvas = 800 /\ height canvas = 480.
Proof.
  unfold downloaded, render_flag.
  destruct (fetch k url) as [| |body]; try discriminate.
  destruct (load_flag url body) as [img|]; [|discriminate]. cbn [mbind option_bind].
  destruct (thumbnail img (screen_width, screen_height)) as [resized|]; [|discriminate].
  cbn [mbind option_bind]. intros [= <-]. repeat split.
Qed.

Lemma update_flag_unfold url bmp_path w :
  update_flag url bmp_path w =
  let logged := if sent (fetch (length (requests w)) url)
                then (requests w ++ [url])%list else requests w in
  match downloaded (length (requests w)) url with
  | Some canvas =>
      if writable bmp_path
      then (Some tt, {| files := <[locate bmp_path := ImageFile canvas]> (files w);
                        requests := logged |})
      else (None, {| files := files w; requests := logged |})
  | None => (None, {| files := files w; requests := logged |})
  end.
Proof.
  unfold update_flag, bind, lift, requests_get, downloaded, write_file. cbv zeta.
  destruct (fetch (length (requests w)) url) as [| |body]; try reflexivity.
  cbn [sent files requests].
  destruct (load_flag url body) as [img|]; [|reflexivity]. cbn [mbind option_bind].
  destruct (render_flag img) as [canvas|]; [|reflexivity].
  destruct (writable bmp_path); reflexivity.
Qed.

(** ** One country *)

Lemma process_country_unfold country index_data w :
  process_country country index_data w =
  match extract country with
  | None => (None, w)
  | Some f =>
      let save := fun w1 : world =>
        if writable (json_path_of (country_id f))
        then (Some (index_data ++ [country_id f +:+ ".json"])%list,
              {| files := <[locate (json_path_of (country_id f)) := JsonFile (metadata f)]>
                            (files w1);
                 requests := requests w1 |})
        else (None, w1) in
      if flag_needs_update (files w) (bmp_path_of (country_id f)) then
        match update_flag (flag_url f) (bmp_path_of (country_id f)) w with
        | (Some _, w1) => save w1
        | (None, w1) => (None, w1)
        end
      else save w
  end.
Proof.
  unfold process_country, bind, lift.
  destruct (extract country) as [f|]; [|reflexivity].
  cbv zeta. destruct (flag_needs_update (files w) (bmp_path_of (country_id f))).
  - destruct (update_flag (flag_url f) (bmp_path_of (country_id f)) w) as [[[]|] w1];
      [|reflexivity].
    unfold write_file, pure. destruct (writable (json_path_of (country_id f))); reflexivity.
  - unfold write_file, pure. destruct (writable (json_path_of (country_id f))); reflexivity.
Qed.

Lemma failure_message_extract country : failure_message country = None -> extract country = None.
Proof.
  unfold failure_message, extract. intros H.
  destruct (dict_get country "name" (JObj [])) as [name|]; [|reflexivity].
  cbn in *. now rewrite H.
Qed.

(** A country that is processed without an exception: its fields were
    extracted, its metadata file could be written, and its flag was
    valid or has been replaced. *)
Lemma process_country_success country index_data w index_data' w' :
  process_country country index_data w = (Some index_data', w') ->
  exists f,
    extract country = Some f /\
    index_data' = (index_data ++ [country_id f +:+ ".json"])%list /\
    writable (json_path_of (country_id f)) = true /\
    ((flag_needs_update (files w) (bmp_path_of (country_id f)) = false /\
      w' = {| files := <[locate (json_path_of (country_id f)) := JsonFile (metadata f)]>
                         (files w);
              requests := requests w |}) \/
     (flag_needs_update (files w) (bmp_path_of (country_id f)) = true /\
      exists canvas,
        downloaded (length (requests w)) (flag_url f) = Some canvas /\
        writable (bmp_path_of (country_id f)) = true /\
        w' = {| files := <[locate (json_path_of (country_id f)) := JsonFile (metadata f)]>
                           (<[locate (bmp_path_of (country_id f)) := ImageFile canvas]>
                              (files w));
                requests := (requests w ++ [flag_url f])%list |})).
Proof.
  rewrite process_country_unfold.
  destruct (extract country) as [f|]; [|discriminate]. cbv zeta.
  destruct (flag_needs_update (files w) (bmp_path_of (country_id f))) eqn:Hupd.
  - rewrite update_flag_unfold. cbv zeta.
    destruct (downloaded (length (requests w)) (flag_url f)) as [canvas|] eqn:Hdl;
      [|discriminate].
    destruct (downloaded_is_canvas _ _ _ Hdl) as [-> _].
    destruct (writable (bmp_path_of (country_id f))) eqn:Hbmp; [|discriminate].
    destruct (writable (json_path_of (country_id f))) eqn:Hjson; [|discriminate].
    intros [= <- <-]. exists f. split; [reflexivity|]. split; [reflexivity|].
    split; [exact Hjson|]. right. split; [exact Hupd|]. exists canvas. auto.
  - destruct (writable (json_path_of (country_id f))) eqn:Hjson; [|discriminate].
    intros [= <- <-]. exists f. split; [reflexivity|]. split; [reflexivity|].
    split; [exact Hjson|]. left. auto.
Qed.

(** A country whose processing raises: at line 35-52, in the update of
    the flag, or when the metadata file is opened. *)
Lemma process_country_failure country index_data w w' :
  process_country country index_data w = (None, w') ->
  (extract country = None /\ w' = w) \/
  exists f,
    extract country = Some f /\
    ((flag_needs_update (files w) (bmp_path_of (country_id f)) = true /\
      (downloaded (length (requests w)) (flag_url f) = None \/
       writable (bmp_path_of (country_id f)) = false) /\
      files w' = files w /\
      requests w' = (requests w ++
                     if sent (fetch (length (requests w)) (flag_url f))
                     then [flag_url f] else [])%list) \/
     (writable (json_path_of (country_id f)) = false /\
      ((flag_needs_update (files w) (bmp_path_of (country_id f)) = false /\ w' = w) \/
       (flag_needs_update (files w) (bmp_path_of (country_id f)) = true /\
        exists canvas,
          downloaded (length (requests w)) (flag_url f) = Some canvas /\
          writable (bmp_path_of (country_id f)) = true /\
          w' = {| files := <[locate (bmp_path_of (country_id f)) := ImageFile canvas]>
                             (files w);
                  requests := (requests w ++ [flag_url f])%list |})))).
Proof.
  rewrite process_country_unfold.
  destruct (extract country) as [f|]; [|intros [= <-]; now left]. cbv zeta.
  intros H. right. exists f. split; [reflexivity|].
  destruct (flag_needs_update (files w) (bmp_path_of (country_id f))) eqn:Hupd.
  - rewrite update_flag_unfold in H. cbv zeta in H.
    destruct (downloaded (length (requests w)) (flag_url f)) as [canvas|] eqn:Hdl.
    + destruct (downloaded_is_canvas _ _ _ Hdl) as [Hsent _]. rewrite Hsent in H |- *.
      destruct (writable (bmp_path_of (country_id f))) eqn:Hbmp.
      * destruct (writable (json_path_of (country_id f))) eqn:Hjson; [discriminate|].
        injection H as <-. right. split; [reflexivity|]. right. split; [reflexivity|].
        exists canvas. auto.
      * injection H as <-. left. split; [reflexivity|]. split; [now right|].
        split; reflexivity.
    + injection H as <-. left. split; [reflexivity|]. split; [now left|].
      split; [reflexivity|]. cbn [requests].
      destruct (sent (fetch (length (requests w)) (flag_url f))); [reflexivity|].
      now rewrite app_nil_r.
  - destruct (writable (json_path_of (country_id f))) eqn:Hjson; [discriminate|].
    injection H as <-. right. split; [reflexivity|]. left. auto.
Qed.

(** ** What is extracted *)

Ltac invert_extract H :=
  unfold extract in H;
  repeat lazymatch type of H with
         | mbind _ ?m = Some _ =>
             let E := fresh "E" in
             destruct m eqn:E; [cbn [mbind option_bind] in H | discriminate H]
         end;
  injection H as <-;
  lazymatch goal with
  | E : match ?c with JStr _ => _ | _ => _ end = Some _ |- _ =>
      destruct c; try discriminate E; injection E as <-
  end;
  simplify_eq.

Lemma extract_name country f :
  extract country = Some f ->
  exists name s,
    dict_get country "name" (JObj []) = Some name /\
    dict_get name "common" (JStr "Unknown") = Some (JStr s) /\
    country_name f = JStr s /\
    country_id f = replace_spaces (str_lower s).
Proof.
  intros H. invert_extract H. cbn [country_name country_id].
  eexists _, _. repeat split; eassumption || reflexivity.
Qed.

(** The document of lines 110-122 has the eleven keys of the source,
    and under each the value lines 35-49 take from the response, or its
    default. *)
Lemma metadata_of_response country f :
  extract country = Some f ->
  exists members,
    metadata f = JObj members /\
    map fst members =
      ["country"; "official_name"; "population"; "area"; "capital"; "region";
       "subregion"; "languages"; "currencies"; "timezones"; "borders"] /\
    assoc "country" members =
      (name ← dict_get country "name" (JObj []); dict_get name "common" (JStr "Unknown")) /\
    assoc "official_name" members =
      (name ← dict_get country "name" (JObj []); dict_get name "official" (JStr "Unknown")) /\
    assoc "population" members = dict_get country "population" (JNum 0) /\
    assoc "area" members = dict_get country "area" (JNum 0) /\
    assoc "capital" members =
      (capitals ← dict_get country "capital" (JArr [JStr "Unknown"]); subscript0 capitals) /\
    assoc "region" members = dict_get country "region" (JStr "Unknown") /\
    assoc "subregion" members = dict_get country "subregion" (JStr "Unknown") /\
    assoc "languages" members =
      (langs ← dict_get country "languages" (JObj []);
       names ← dict_values langs;
       joined ← join_items ", " names;
       Some (JStr joined)) /\
    assoc "currencies" members =
      (currs ← dict_get country "currencies" (JObj []);
       items ← dict_items currs;
       parts ← mapM (fun item : string * json =>
                       currency ← dict_get (snd item) "name" JNull;
                       Some (format_value currency +:+ " (" +:+ fst item +:+ ")"))
                    items;
       Some (JStr (String.concat ", " parts))) /\
    assoc "timezones" members =
      (zones ← dict_get country "timezones" (JArr []);
       joined ← str_join ", " zones;
       Some (JStr joined)) /\
    assoc "borders" members =
      (neighbours ← dict_get country "borders" (JArr []);
       joined ← str_join ", " neighbours;
       Some (JStr joined)).
Proof.
  intros H. invert_extract H. unfold metadata.
  cbn [country_name official_name population area capital region subregion languages
       currencies timezone borders].
  eexists. split; [reflexivity|]. split; [reflexivity|].
  repeat first
    [ split
    | progress cbn [mbind option_bind]
    | match goal with E : ?x = Some _ |- context [?x] => rewrite E end ];
    reflexivity.
Qed.

Lemma length_replace_spaces s : String.length (replace_spaces s) = String.length s.
Proof. induction s as [|c s IH]; [reflexivity|]. cbn [replace_spaces String.length]. now rewrite IH. Qed.

Lemma replace_spaces_no_space s : ~ In " "%char (list_ascii_of_string (replace_spaces s)).
Proof.
  induction s as [|c s IH]; [intros []|].
  cbn [replace_spaces list_ascii_of_string]. intros [E | H]; [|now apply IH].
  destruct (Ascii.eqb_spec c " "%char) as [-> | Hc]; [discriminate | congruence].
Qed.

Lemma replace_spaces_idem s : replace_spaces (replace_spaces s) = replace_spaces s.
Proof.
  induction s as [|c s IH]; [reflexivity|].
  cbn [replace_spaces]. rewrite IH. f_equal.
  destruct (Ascii.eqb_spec c " "%char) as [-> | Hc]; [reflexivity|].
  destruct (Ascii.eqb_spec c " "%char); [contradiction | reflexivity].
Qed.

(** ** The loop *)

Lemma for_countries_cons country rest index_data w :
  for_countries (country :: rest) index_data w =
  match process_country country index_data w with
  | (Some index_data', w') => for_countries rest index_data' w'
  | (None, w') =>
      match failure_message country with
      | Some _ => for_countries rest index_data w'
      | None => (None, w')
      end
  end.
Proof. reflexivity. Qed.


Lemma omap_cons {A B} (g : A -> option B) a l : omap g (a :: l) = (omap g [a] ++ omap g l)%list.
Proof. cbn [omap list_omap]. now destruct (g a). Qed.

Lemma length_omap_le {A B} (g : A -> option B) l : (length (omap g l) <= length l)%nat.
Proof.
  induction l as [|a l IH]; [reflexivity|].
  cbn [omap list_omap]. fold (omap g l). destruct (g a); cbn [length]; lia.
Qed.

(** What one country adds to the record of requests and to the index. *)
Lemma process_country_log country index_data w :
  exists urls,
    requests (snd (process_country country index_data w)) = (requests w ++ urls)%list /\
    sublist urls (omap flag_request [country]) /\
    match fst (process_country country index_data w) with
    | Some index_data' =>
        exists entry, omap index_entry [country] = [entry] /\
                      index_data' = (index_data ++ [entry])%list
    | None => True
    end.
Proof.
  destruct (process_country country index_data w) as [[index_data'|] w'] eqn:Hrun;
    cbn [fst snd].
  - destruct (process_country_success _ _ _ _ _ Hrun)
      as (f & Hf & -> & _ & [[_ ->] | (_ & canvas & _ & _ & ->)]);
      cbn [requests omap list_omap]; unfold flag_request, index_entry; rewrite Hf;
      cbn [mbind option_bind].
    + exists []. rewrite app_nil_r. split; [reflexivity|]. split; [apply sublist_nil_l|].
      eexists. split; reflexivity.
    + exists [flag_url f]. split; [reflexivity|]. split; [reflexivity|].
      eexists. split; reflexivity.
  - destruct (process_country_failure _ _ _ _ Hrun)
      as [[_ ->] | (f & Hf & [(_ & _ & _ & ->) | (_ & [[_ ->] | (_ & canvas & _ & _ & ->)])])];
      cbn [requests omap list_omap]; unfold flag_request; try rewrite Hf;
      cbn [mbind option_bind].
    + exists []. rewrite app_nil_r. split; [reflexivity|]. split; [apply sublist_nil_l | exact I].
    + eexists. split; [reflexivity|]. split; [|exact I].
      destruct (sent _); [reflexivity | apply sublist_nil_l].
    + exists []. rewrite app_nil_r. split; [reflexivity|]. split; [apply sublist_nil_l | exact I].
    + exists [flag_url f]. split; [reflexivity|]. split; [reflexivity | exact I].
Qed.

(** What a run of the loop requests and what it appends to the index. *)
Lemma for_countries_log countries :
  forall index_data w, exists urls entries,
    requests (snd (for_countries countries index_data w)) = (requests w ++ urls)%list /\
    sublist urls (omap flag_request countries) /\
    (forall index_data', fst (for_countries countries index_data w) = Some index_data' ->
                         index_data' = (index_data ++ entries)%list) /\
    sublist entries (omap index_entry countries).
Proof.
  induction countries as [|country rest IH]; intros index_data w.
  - exists [], []. cbn. rewrite !app_nil_r.
    split; [reflexivity|]. split; [constructor|]. split; [now intros ? [= <-] | constructor].
  - rewrite for_countries_cons, (omap_cons flag_request), (omap_cons index_entry).
    destruct (process_country_log country index_data w) as (urls1 & Hr1 & Hu1 & He1).
    destruct (process_country country index_data w) as [[index_data1|] w1];
      cbn [fst snd] in Hr1, He1.
    + destruct He1 as (entry & -> & ->).
      destruct (IH (index_data ++ [entry])%list w1) as (urls & entries & Hr & Hu & Hi & He).
      exists (urls1 ++ urls)%list, (entry :: entries).
      rewrite Hr, Hr1, <- app_assoc. split; [reflexivity|].
      split; [now apply sublist_app|]. split; [|now apply sublist_skip].
      intros index_data' H. rewrite (Hi _ H), <- app_assoc. reflexivity.
    + destruct (failure_message country).
      * destruct (IH index_data w1) as (urls & entries & Hr & Hu & Hi & He).
        exists (urls1 ++ urls)%list, entries.
        rewrite Hr, Hr1, <- app_assoc. split; [reflexivity|].
        split; [now apply sublist_app|]. split; [exact Hi | now apply sublist_inserts_l].
      * exists urls1, []. cbn [fst snd]. split; [exact Hr1|].
        split; [now apply sublist_inserts_r|]. split; [discriminate | apply sublist_nil_l].
Qed.

(** An invariant of the world that every country keeps is kept by the
    loop, whether it ends or is left by an exception. *)
Lemma for_countries_keeps (Inv : list string -> world -> Prop) countries :
  (forall country index_data w,
     In country countries -> Inv index_data w ->
     match process_country country index_data w with
     | (Some index_data', w') => Inv index_data' w'
     | (None, w') => Inv index_data w'
     end) ->
  forall index_data w,
    Inv index_data w ->
    match for_countries countries index_data w with
    | (Some index_data', w') => Inv index_data' w'
    | (None, w') => exists index_data', Inv index_data' w'
    end.
Proof.
  induction countries as [|country rest IH]; intros Hstep index_data w HI.
  - exact HI.
  - rewrite for_countries_cons.
    assert (Hrest : forall c i w0, In c rest -> Inv i w0 ->
              match process_country c i w0 with
              | (Some i', w') => Inv i' w'
              | (None, w') => Inv i w'
              end) by (intros c i w0 Hc; apply Hstep; now right).
    specialize (Hstep country index_data w (or_introl eq_refl) HI).
    destruct (process_country country index_data w) as [[index_data'|] w'].
    + now apply IH.
    + destruct (failure_message country); [now apply IH | now exists index_data].
Qed.

(** The loop over countries whose flags are all valid. *)
Lemma for_countries_cached countries :
  Forall (fun country => failure_message country <> None) countries ->
  forall index_data w,
    (forall country f, In country countries -> extract country = Some f ->
                       flag_needs_update (files w) (bmp_path_of (country_id f)) = false) ->
    exists w',
      for_countries countries index_data w =
        (Some (index_data ++ omap saved_entry countries)%list, w') /\
      requests w' = requests w /\
      forall id, files w' !! locate (bmp_path_of id) = files w !! locate (bmp_path_of id).
Proof.
  induction 1 as [|country rest Hmsg _ IH]; intros index_data w Hvalid.
  - exists w. cbn. now rewrite app_nil_r.
  - rewrite for_countries_cons, process_country_unfold.
    cbn [omap list_omap]. fold (omap saved_entry rest). unfold saved_entry at 1.
    destruct (extract country) as [f|] eqn:Hf; cbn [mbind option_bind].
    + cbv zeta. rewrite (Hvalid country f (or_introl eq_refl) Hf).
      destruct (writable (json_path_of (country_id f))).
      * set (w1 := {| files := <[locate (json_path_of (country_id f)) := JsonFile (metadata f)]>
                                 (files w);
                      requests := requests w |}).
        assert (Hbmp : forall id,
                  files w1 !! locate (bmp_path_of id) = files w !! locate (bmp_path_of id)).
        { intros id. apply lookup_insert_ne, json_not_bmp. }
        destruct (IH (index_data ++ [country_id f +:+ ".json"])%list w1)
          as (w' & Hrun & Hreq & Hfiles).
        { intros c g Hc Hg. rewrite (flag_needs_update_lookup (files w) (files w1)) by apply Hbmp.
          apply (Hvalid c g); [now right | exact Hg]. }
        exists w'. rewrite Hrun, <- app_assoc. split; [reflexivity|]. split; [exact Hreq|].
        intros id. now rewrite Hfiles, Hbmp.
      * destruct (failure_message country); [|congruence].
        destruct (IH index_data w) as (w' & Hrun & Hreq & Hfiles).
        { intros c g Hc Hg. apply (Hvalid c g); [now right | exact Hg]. }
        exists w'. auto.
    + destruct (failure_message country); [|congruence].
      destruct (IH index_data w) as (w' & Hrun & Hreq & Hfiles).
      { intros c g Hc Hg. apply (Hvalid c g); [now right | exact Hg]. }
      exists w'. auto.
Qed.

(** ** The claims about the flag cache *)

(** C3, amended.  For a country whose fields are extracted without an
    exception, [requests.get] is called for the flag exactly when the
    cached BMP does not exist, cannot be opened, is not 800x480, or has
    fewer than half of its pixels different from white; a request goes
    out unless [requests] rejects the URL.  If the call is not made the
    BMP stays as it is; if it is made the BMP becomes the newly rendered
    canvas when download, decoding, rendering and saving succeed, and
    stays as it is when one of them raises. *)
Theorem flag_download_follows_cache
    (country : json) (index_data : list string) (w : world) (f : fields) :
  extract country = Some f ->
  let bmp_path := bmp_path_of (country_id f) in
  let w' := snd (process_country country index_data w) in
  let answer := fetch (length (requests w)) (flag_url f) in
  (flag_needs_update (files w) bmp_path = true <->
     read_file (files w) bmp_path = None \/
     (exists other, read_file (files w) bmp_path = Some other /\ open_image other = None) \/
     (exists img, read_file (files w) bmp_path = Some (ImageFile img) /\
        (width img <> 800 \/ height img <> 480 \/
         2 * non_background_pixels img < 800 * 480))) /\
  requests w' =
    (requests w ++
     if flag_needs_update (files w) bmp_path && sent answer then [flag_url f] else [])%list /\
  (flag_needs_update (files w) bmp_path = false ->
     files w' !! locate bmp_path = files w !! locate bmp_path) /\
  (flag_needs_update (files w) bmp_path = true ->
     files w' !! locate bmp_path =
       match downloaded (length (requests w)) (flag_url f) with
       | Some canvas =>
           if writable bmp_path then Some (ImageFile canvas) else files w !! locate bmp_path
       | None => files w !! locate bmp_path
       end).
Proof.
  intros Hf bmp_path w' answer. split; [apply flag_needs_update_iff|].
  subst w'. rewrite process_country_unfold, Hf. cbv zeta. fold bmp_path.
  destruct (flag_needs_update (files w) bmp_path).
  - rewrite update_flag_unfold. cbv zeta. fold answer. cbn [andb].
    assert (Hlog : (if sent answer then (requests w ++ [flag_url f])%list else requests w) =
                   (requests w ++ if sent answer then [flag_url f] else [])%list)
      by (destruct (sent answer); [reflexivity | now rewrite app_nil_r]).
    rewrite Hlog.
    destruct (downloaded (length (requests w)) (flag_url f)) as [canvas|].
    + destruct (writable bmp_path).
      * destruct (writable (json_path_of (country_id f))); cbn [snd files requests];
          (split; [reflexivity|]; split; [discriminate|]; intros _).
        -- rewrite lookup_insert_ne by apply json_not_bmp. apply lookup_insert_eq.
        -- apply lookup_insert_eq.
      * cbn [snd files requests]. split; [reflexivity|]. split; [discriminate | reflexivity].
    + cbn [snd files requests]. split; [reflexivity|]. split; [discriminate | reflexivity].
  - cbn [andb]. destruct (writable (json_path_of (country_id f))); cbn [snd files requests];
      (split; [now rewrite app_nil_r|]; split; [intros _ | discriminate]).
    + apply lookup_insert_ne, json_not_bmp.
    + reflexivity.
Qed.

(** C10, amended.  When the fields of a country are extracted, its
    cached flag is valid and its metadata file can be opened for writing,
    [process_country] makes no request, leaves the BMP and every file
    other than the country's metadata file alone, writes there the
    document whose eleven keys hold what lines 35-49 take from the
    response, and appends [<country_id>.json] to the index.  A flag that
    needs an update gives the same document and the same entry if its
    update succeeds, and neither, with every metadata file as it was, if
    the update raises. *)
Theorem metadata_written_when_flag_cached
    (country : json) (index_data : list string) (w : world) (f : fields) :
  extract country = Some f ->
  flag_needs_update (files w) (bmp_path_of (country_id f)) = false ->
  writable (json_path_of (country_id f)) = true ->
  process_country country index_data w =
    (Some (index_data ++ [country_id f +:+ ".json"])%list,
     {| files := <[locate (json_path_of (country_id f)) := JsonFile (metadata f)]> (files w);
        requests := requests w |}) /\
  (exists members,
     metadata f = JObj members /\
     map fst members =
       ["country"; "official_name"; "population"; "area"; "capital"; "region";
        "subregion"; "languages"; "currencies"; "timezones"; "borders"] /\
     assoc "country" members =
       (name ← dict_get country "name" (JObj []); dict_get name "common" (JStr "Unknown")) /\
     assoc "official_name" members =
       (name ← dict_get country "name" (JObj []); dict_get name "official" (JStr "Unknown")) /\
     assoc "population" members = dict_get country "population" (JNum 0) /\
     assoc "area" members = dict_get country "area" (JNum 0) /\
     assoc "capital" members =
       (capitals ← dict_get country "capital" (JArr [JStr "Unknown"]); subscript0 capitals) /\
     assoc "region" members = dict_get country "region" (JStr "Unknown") /\
     assoc "subregion" members = dict_get country "subregion" (JStr "Unknown") /\
     assoc "languages" members =
       (langs ← dict_get country "languages" (JObj []);
        names ← dict_values langs;
        joined ← join_items ", " names;
        Some (JStr joined)) /\
     assoc "currencies" members =
       (currs ← dict_get country "currencies" (JObj []);
        items ← dict_items currs;
        parts ← mapM (fun item : string * json =>
                        currency ← dict_get (snd item) "name" JNull;
                        Some (format_value currency +:+ " (" +:+ fst item +:+ ")"))
                     items;
        Some (JStr (String.concat ", " parts))) /\
     assoc "timezones" members =
       (zones ← dict_get country "timezones" (JArr []);
        joined ← str_join ", " zones;
        Some (JStr joined)) /\
     assoc "borders" members =
       (neighbours ← dict_get country "borders" (JArr []);
        joined ← str_join ", " neighbours;
        Some (JStr joined))) /\
  (forall loc, loc <> locate (json_path_of (country_id f)) ->
     files (snd (process_country country index_data w)) !! loc = files w !! loc) /\
  files (snd (process_country country index_data w)) !! locate (bmp_path_of (country_id f)) =
    files w !! locate (bmp_path_of (country_id f)) /\
  (forall w2 canvas,
     flag_needs_update (files w2) (bmp_path_of (country_id f)) = true ->
     downloaded (length (requests w2)) (flag_url f) = Some canvas ->
     writable (bmp_path_of (country_id f)) = true ->
     fst (process_country country index_data w2) =
       Some (index_data ++ [country_id f +:+ ".json"])%list /\
     files (snd (process_country country index_data w2)) !! locate (json_path_of (country_id f)) =
       Some (JsonFile (metadata f))) /\
  (forall w2,
     flag_needs_update (files w2) (bmp_path_of (country_id f)) = true ->
     downloaded (length (requests w2)) (flag_url f) = None \/
     writable (bmp_path_of (country_id f)) = false ->
     fst (process_country country index_data w2) = None /\
     files (snd (process_country country index_data w2)) = files w2).
Proof.
  intros Hf Hcache Hjson.
  assert (Hrun := process_country_unfold country index_data w).
  rewrite Hf in Hrun. cbv zeta in Hrun. rewrite Hcache, Hjson in Hrun.
  split; [exact Hrun|]. split; [now apply metadata_of_response|].
  rewrite Hrun. cbn [snd files]. split; [|split; [|split]].
  - intros loc Hloc. now apply lookup_insert_ne.
  - apply lookup_insert_ne, json_not_bmp.
  - intros w2 canvas Hupd Hdl Hbmp. rewrite process_country_unfold, Hf. cbv zeta.
    rewrite Hupd, update_flag_unfold. cbv zeta. rewrite Hdl, Hbmp, Hjson.
    cbn [fst snd files]. split; [reflexivity | apply lookup_insert_eq].
  - intros w2 Hupd Hfail. rewrite process_country_unfold, Hf. cbv zeta.
    rewrite Hupd, update_flag_unfold. cbv zeta.
    destruct Hfail as [-> | Hbmp]; [split; reflexivity|].
    destruct (downloaded (length (requests w2)) (flag_url f)); [|split; reflexivity].
    rewrite Hbmp. split; reflexivity.
Qed.


(** C6, evaluated on a response whose first entry has a string as its
    ["name"].  [extract] raises, and so does the message of the [except]
    clause; the exception leaves the loop, and the outer handler returns
    without having processed the other countries and without having
    written [index.json]: the world is as it was. *)
Theorem string_name_aborts_run (rest : list json) (w : world) :
  extract france_v2 = None /\
  failure_message france_v2 = None /\
  fetch_and_save_flags (Some (JArr (france_v2 :: rest))) w = w.
Proof.
  split; [reflexivity|]. split; [reflexivity|].
  unfold fetch_and_save_flags, bind, lift. cbn [py_iter for_countries].
  rewrite process_country_unfold. reflexivity.
Qed.

(** ** More about the run *)

(** X6.  When lines 35-52 do not raise, the common name is a string
    (the one of the API, or ["Unknown"] when the name has no ["common"]
    key), and the identifier that names the BMP, the JSON file and the
    index entry is that name in lower case with every space replaced by
    an underscore: as long as the lowered name, free of spaces, and
    unchanged by a further replacement. *)
Theorem country_id_from_common_name (country : json) (f : fields) :
  extract country = Some f ->
  exists name s,
    dict_get country "name" (JObj []) = Some name /\
    dict_get name "common" (JStr "Unknown") = Some (JStr s) /\
    country_name f = JStr s /\
    country_id f = replace_spaces (str_lower s) /\
    String.length (country_id f) = String.length (str_lower s) /\
    ~ In " "%char (list_ascii_of_string (country_id f)) /\
    replace_spaces (country_id f) = country_id f.
Proof.
  intros Hf. destruct (extract_name country f Hf) as (name & s & Hname & Hcommon & Hs & Hid).
  exists name, s. rewrite Hid.
  split; [exact Hname|]. split; [exact Hcommon|]. split; [exact Hs|]. split; [reflexivity|].
  split; [apply length_replace_spaces|]. split; [apply replace_spaces_no_space|].
  apply replace_spaces_idem.
Qed.

(** X7.  A country whose processing raises writes no metadata: every
    metadata file is as it was.  The exception comes from lines 35-52,
    before anything is requested; or from the update of a flag, in its
    download, decoding, rendering or saving, after at most one request
    and with every file as it was; or from the opening of the metadata
    file, and then the BMP of the country, if it had to be updated, has
    been replaced already and is the only file that has changed. *)
Theorem failed_country_writes_no_metadata
    (country : json) (index_data : list string) (w w' : world) :
  process_country country index_data w = (None, w') ->
  (forall id, files w' !! locate (json_path_of id) = files w !! locate (json_path_of id)) /\
  ((extract country = None /\ w' = w) \/
   exists f,
     extract country = Some f /\
     ((flag_needs_update (files w) (bmp_path_of (country_id f)) = true /\
       (downloaded (length (requests w)) (flag_url f) = None \/
        writable (bmp_path_of (country_id f)) = false) /\
       files w' = files w /\
       requests w' = (requests w ++
                      if sent (fetch (length (requests w)) (flag_url f))
                      then [flag_url f] else [])%list) \/
      (writable (json_path_of (country_id f)) = false /\
       (forall loc, loc <> locate (bmp_path_of (country_id f)) ->
                    files w' !! loc = files w !! loc) /\
       (flag_needs_update (files w) (bmp_path_of (country_id f)) = false -> w' = w) /\
       (flag_needs_update (files w) (bmp_path_of (country_id f)) = true ->
        exists canvas,
          downloaded (length (requests w)) (flag_url f) = Some canvas /\
          files w' !! locate (bmp_path_of (country_id f)) = Some (ImageFile canvas) /\
          requests w' = (requests w ++ [flag_url f])%list)))).
Proof.
  intros Hrun.
  destruct (process_country_failure _ _ _ _ Hrun)
    as [[Hf ->] | (f & Hf & [(Hupd & Hfail & Hfiles & Hreq) |
                             (Hjson & [[Hupd ->] | (Hupd & canvas & Hdl & Hbmp & ->)])])].
  - split; [reflexivity | now left].
  - split; [intros id; now rewrite Hfiles|]. right. exists f. split; [exact Hf|]. left. auto.
  - split; [reflexivity|]. right. exists f. split; [exact Hf|]. right.
    split; [exact Hjson|]. split; [reflexivity|]. split; [reflexivity | congruence].
  - cbn [files requests]. split.
    + intros id. apply lookup_insert_ne, bmp_not_json.
    + right. exists f. split; [exact Hf|]. right. split; [exact Hjson|].
      split; [intros loc Hloc; now apply lookup_insert_ne|]. split; [congruence|].
      intros _. exists canvas. split; [exact Hdl|]. split; [apply lookup_insert_eq | reflexivity].
Qed.

(** X8.  After a country has been processed without an exception its
    metadata file holds the metadata, its entry is the last of the index,
    and its BMP exists and is an image of 800x480 pixels, so that a later
    run downloads the flag again exactly when fewer than half of its
    pixels differ from white.  If the flag counts as valid, processing
    the country again gives the same index and changes nothing. *)
Theorem processed_country_is_cached
    (country : json) (index_data index_data' : list string) (w w' : world) (f : fields) :
  extract country = Some f ->
  process_country country index_data w = (Some index_data', w') ->
  index_data' = (index_data ++ [country_id f +:+ ".json"])%list /\
  files w' !! locate (json_path_of (country_id f)) = Some (JsonFile (metadata f)) /\
  (exists img,
     files w' !! locate (bmp_path_of (country_id f)) = Some (ImageFile img) /\
     width img = 800 /\ height img = 480 /\
     flag_needs_update (files w') (bmp_path_of (country_id f)) =
       (2 * non_background_pixels img <? 800 * 480)) /\
  (flag_needs_update (files w') (bmp_path_of (country_id f)) = false ->
   process_country country index_data w' = (Some index_data', w')).
Proof.
  intros Hf Hrun.
  destruct (process_country_success _ _ _ _ _ Hrun) as (g & Hg & -> & Hjson & Hcase).
  rewrite Hf in Hg. injection Hg as <-.
  assert (Hagain : forall fs rq,
            w' = {| files := <[locate (json_path_of (country_id f)) := JsonFile (metadata f)]> fs;
                    requests := rq |} ->
            flag_needs_update (files w') (bmp_path_of (country_id f)) = false ->
            process_country country index_data w' =
              (Some (index_data ++ [country_id f +:+ ".json"])%list, w')).
  { intros fs rq -> Hvalid. rewrite process_country_unfold, Hf. cbv zeta.
    rewrite Hvalid, Hjson. cbn [files requests]. now rewrite insert_insert_eq. }
  split; [reflexivity|].
  destruct Hcase as [[Hupd ->] | (Hupd & canvas & Hdl & Hbmp & ->)]; cbn [files].
  - destruct (valid_flag_is_canvas _ _ Hupd) as (img & Hreach & Himg & Hw & Hh & _).
    assert (Hl : <[locate (json_path_of (country_id f)) := JsonFile (metadata f)]> (files w)
                   !! locate (bmp_path_of (country_id f)) = Some (ImageFile img)).
    { rewrite lookup_insert_ne by apply json_not_bmp. exact Himg. }
    split; [apply lookup_insert_eq|].
    split; [exists img; split; [exact Hl|]; split; [exact Hw|]; split; [exact Hh|];
            now apply canvas_needs_update|].
    intros Hvalid. eapply Hagain; [reflexivity | exact Hvalid].
  - destruct (downloaded_is_canvas _ _ _ Hdl) as (_ & Hw & Hh).
    assert (Hreach : reachable (bmp_path_of (country_id f)) = true).
    { unfold writable in Hbmp. now apply andb_true_iff in Hbmp as [Hr _]. }
    assert (Hl : <[locate (json_path_of (country_id f)) := JsonFile (metadata f)]>
                   (<[locate (bmp_path_of (country_id f)) := ImageFile canvas]> (files w))
                   !! locate (bmp_path_of (country_id f)) = Some (ImageFile canvas)).
    { rewrite lookup_insert_ne by apply json_not_bmp. apply lookup_insert_eq. }
    split; [apply lookup_insert_eq|].
    split; [exists canvas; split; [exact Hl|]; split; [exact Hw|]; split; [exact Hh|];
            now apply canvas_needs_update|].
    intros Hvalid. eapply Hagain; [reflexivity | exact Hvalid].
Qed.

(** X9.  A run deletes no file, and the only files it creates or changes
    are [server/info/index.json] and, for countries of the response whose
    fields are extracted, [server/flags/<id>.bmp] and
    [server/info/<id>.json]. *)
Theorem run_touches_only_its_files
    (countries : list json) (w : world) (loc : list string) :
  let w' := fetch_and_save_flags (Some (JArr countries)) w in
  (is_Some (files w !! loc) -> is_Some (files w' !! loc)) /\
  (files w' !! loc = files w !! loc \/
   loc = locate index_path \/
   exists country f,
     In country countries /\ extract country = Some f /\
     (loc = locate (bmp_path_of (country_id f)) \/
      loc = locate (json_path_of (country_id f)))).
Proof.
  set (Touched := exists country f,
         In country countries /\ extract country = Some f /\
         (loc = locate (bmp_path_of (country_id f)) \/
          loc = locate (json_path_of (country_id f)))).
  set (Inv := fun (_ : list string) (w1 : world) =>
    (is_Some (files w !! loc) -> is_Some (files w1 !! loc)) /\
    (files w1 !! loc = files w !! loc \/ Touched)).
  assert (Hins : forall key (v : file) (fs : gmap (list string) file),
            (is_Some (files w !! loc) -> is_Some (fs !! loc)) ->
            is_Some (files w !! loc) -> is_Some (<[key := v]> fs !! loc)).
  { intros key v fs H Hs. apply lookup_insert_is_Some.
    destruct (decide (key = loc)); [now left | right; auto]. }
  assert (Hstep : forall country index_data w1,
            In country countries -> Inv index_data w1 ->
            match process_country country index_data w1 with
            | (Some index_data', w2) => Inv index_data' w2
            | (None, w2) => Inv index_data w2
            end).
  { intros country index_data w1 Hin [Hkeep Hsame].
    assert (Hbmp : forall f canvas,
              extract country = Some f ->
              <[locate (bmp_path_of (country_id f)) := ImageFile canvas]> (files w1) !! loc =
                files w !! loc \/ Touched).
    { intros f canvas Hf.
      destruct (decide (locate (bmp_path_of (country_id f)) = loc)) as [E|E].
      - right. exists country, f. auto.
      - rewrite lookup_insert_ne by exact E. exact Hsame. }
    assert (Hjson : forall f (fs : gmap (list string) file),
              extract country = Some f ->
              fs !! loc = files w !! loc \/ Touched ->
              <[locate (json_path_of (country_id f)) := JsonFile (metadata f)]> fs !! loc =
                files w !! loc \/ Touched).
    { intros f fs Hf H.
      destruct (decide (locate (json_path_of (country_id f)) = loc)) as [E|E].
      - right. exists country, f. auto.
      - rewrite lookup_insert_ne by exact E. exact H. }
    destruct (process_country country index_data w1) as [[index_data'|] w2] eqn:Hrun.
    - destruct (process_country_success _ _ _ _ _ Hrun)
        as (f & Hf & _ & _ & [[_ ->] | (_ & canvas & _ & _ & ->)]); split; cbn [files].
      + intros Hs. now apply Hins.
      + now apply Hjson.
      + intros Hs. apply Hins; [|exact Hs]. intros Hs'. now apply Hins.
      + apply Hjson; [exact Hf|]. now apply Hbmp.
    - destruct (process_country_failure _ _ _ _ Hrun)
        as [[_ ->] | (f & Hf & [(_ & _ & Hfiles & _) |
                                (_ & [[_ ->] | (_ & canvas & _ & _ & ->)])])].
      + split; assumption.
      + unfold Inv. rewrite Hfiles. split; assumption.
      + split; assumption.
      + split; cbn [files]; [intros Hs; now apply Hins | now apply Hbmp]. }
  assert (Hloop := for_countries_keeps Inv countries Hstep [] w).
  cbv zeta. unfold fetch_and_save_flags, bind, lift. cbn [py_iter].
  destruct (for_countries countries [] w) as [[index_data|] w1].
  - destruct Hloop as [Hkeep Hsame]; [split; [auto | now left]|].
    unfold write_file. destruct (writable index_path); cbn [snd files].
    + split; [intros Hs; now apply Hins|].
      destruct (decide (locate index_path = loc)) as [E|E]; [now right; left|].
      rewrite lookup_insert_ne by exact E.
      destruct Hsame as [Hsame|Hsame]; [now left | now right; right].
    + split; [exact Hkeep|]. destruct Hsame as [Hsame|Hsame]; [now left | now right; right].
  - destruct Hloop as (index_data & Hkeep & Hsame); [split; [auto | now left]|].
    cbn [snd]. split; [exact Hkeep|].
    destruct Hsame as [Hsame|Hsame]; [now left | now right; right].
Qed.

(** X10.  A run makes at most one flag request per country of the
    response, in the order of the response, and only for URLs taken from
    countries whose fields are extracted. *)
Theorem one_request_per_country (countries : list json) (w : world) :
  exists urls,
    requests (fetch_and_save_flags (Some (JArr countries)) w) = (requests w ++ urls)%list /\
    sublist urls (omap flag_request countries) /\
    (length urls <= length countries)%nat.
Proof.
  destruct (for_countries_log countries [] w) as (urls & entries & Hreq & Hurls & _).
  exists urls. split; [|split; [exact Hurls|]].
  - unfold fetch_and_save_flags, bind, lift. cbn [py_iter].
    destruct (for_countries countries [] w) as [[index_data|] w1]; [|exact Hreq].
    unfold write_file. destruct (writable index_path); exact Hreq.
  - apply sublist_length in Hurls. pose proof (length_omap_le flag_request countries). lia.
Qed.


(** X12.  A run over flags that are all cached and valid is offline: it
    makes no request and leaves every BMP as it is.  If the index can be
    opened for writing, it lists, in the order of the response, the
    countries whose fields are extracted and whose metadata file could
    be written. *)
Theorem cached_run_is_offline (countries : list json) (w : world) :
  Forall (fun country => failure_message country <> None) countries ->
  (forall country f, In country countries -> extract country = Some f ->
                     flag_needs_update (files w) (bmp_path_of (country_id f)) = false) ->
  let w' := fetch_and_save_flags (Some (JArr countries)) w in
  requests w' = requests w /\
  (forall id, files w' !! locate (bmp_path_of id) = files w !! locate (bmp_path_of id)) /\
  (writable index_path = true ->
   files w' !! locate index_path =
     Some (JsonFile (JArr (map JStr (omap saved_entry countries))))).
Proof.
  intros Hmsg Hvalid.
  destruct (for_countries_cached countries Hmsg [] w Hvalid) as (w1 & Hrun & Hreq & Hfiles).
  cbv zeta. unfold fetch_and_save_flags, bind, lift. cbn [py_iter]. rewrite Hrun.
  unfold write_file. destruct (writable index_path); cbn [snd files requests app].
  - split; [exact Hreq|]. split; [|intros _; apply lookup_insert_eq].
    intros id. rewrite lookup_insert_ne; [apply Hfiles|].
    intros E. symmetry in E. revert E. apply bmp_not_index.
  - split; [exact Hreq|]. split; [exact Hfiles | discriminate].
Qed.

(** X17.  Responses that are not a list of countries.  When the request
    to the API fails, or the body is [null], a boolean or a number, the
    run changes nothing.  A JSON object with at least one key, as an
    error body is, changes nothing either: the loop goes through its
    keys, and a string makes the [except] clause raise as well.  An empty
    list, an empty object and an empty string make the run replace
    [index.json] by an empty index, without any request; if the index
    cannot be opened for writing they change nothing. *)
Theorem degenerate_responses (w : world) :
  fetch_and_save_flags None w = w /\
  fetch_and_save_flags (Some JNull) w = w /\
  (forall b, fetch_and_save_flags (Some (JBool b)) w = w) /\
  (forall n, fetch_and_save_flags (Some (JNum n)) w = w) /\
  (forall key v members, fetch_and_save_flags (Some (JObj ((key, v) :: members))) w = w) /\
  (forall response, In response [JArr []; JObj []; JStr ""] ->
     fetch_and_save_flags (Some response) w =
       if writable index_path
       then {| files := <[locate index_path := JsonFile (JArr [])]> (files w);
               requests := requests w |}
       else w).
Proof.
  split; [reflexivity|]. split; [reflexivity|]. split; [reflexivity|]. split; [reflexivity|].
  split.
  - intros key v members. unfold fetch_and_save_flags, bind, lift.
    cbn [py_iter map fst]. rewrite for_countries_cons, process_country_unfold. reflexivity.
  - intros response [<- | [<- | [<- | []]]];
      unfold fetch_and_save_flags, bind, lift, write_file;
      cbn [py_iter map list_ascii_of_string for_countries pure];
      destruct (writable index_path); reflexivity.
Qed.

End Script.

(** ** Concrete runs *)

(** C3 as stated fails in four ways.  For a country with an empty list
    of capitals no file exists, line 40 raises, and the flag is neither
    requested nor rendered although the network is up.  For a country
    whose flag cannot be downloaded the flag is requested but not
    rendered: no BMP exists afterwards.  For a country without a flag
    URL nothing is requested.  For a country with a slash in its name the
    flag is requested and rendered, but it cannot be saved. *)
Lemma uncached_flag_not_rendered :
  let w1 := @fetch_and_save_flags online_world (Some (JArr [atlantis])) nowhere in
  let w2 := @fetch_and_save_flags offline_world (Some (JArr [norway])) nowhere in
  let w3 := @fetch_and_save_flags online_world (Some (JArr [flagless])) nowhere in
  let w4 := @fetch_and_save_flags online_world (Some (JArr [slashland])) nowhere in
  (@read_file online_world (files nowhere) (bmp_path_of "atlantis") = None /\
   @flag_needs_update online_world (files nowhere) (bmp_path_of "atlantis") = true /\
   requests w1 = [] /\
   files w1 !! @locate online_world (bmp_path_of "atlantis") = None) /\
  (@flag_needs_update offline_world (files nowhere) (bmp_path_of "norway") = true /\
   requests w2 = [JStr "https://flagcdn.com/no.svg"] /\
   files w2 !! @locate offline_world (bmp_path_of "norway") = None) /\
  (@flag_needs_update online_world (files nowhere) (bmp_path_of "flagless") = true /\
   requests w3 = [] /\
   files w3 !! @locate online_world (bmp_path_of "flagless") = None) /\
  (@flag_needs_update online_world (files nowhere) (bmp_path_of "a/b") = true /\
   requests w4 = [JStr "https://flagcdn.com/ab.svg"] /\
   (exists canvas,
      @downloaded online_world 0 (JStr "https://flagcdn.com/ab.svg") = Some canvas) /\
   files w4 !! @locate online_world (bmp_path_of "a/b") = None).
Proof.
  cbv zeta. split; [|split; [|split]].
  - vm_compute. repeat split.
  - vm_compute. repeat split.
  - vm_compute. repeat split.
  - split; [vm_compute; reflexivity|]. split; [vm_compute; reflexivity|].
    split; [eexists; reflexivity | vm_compute; reflexivity].
Qed.

Lemma flag_download_follows_cache_witness :
  exists f,
    @extract online_world norway = Some f /\
    requests (snd (@process_country online_world norway [] nowhere)) = [flag_url f].
Proof.
  eexists. split; [reflexivity|].
  rewrite (proj1 (proj2 (@flag_download_follows_cache online_world norway [] nowhere _ eq_refl))).
  reflexivity.
Defined.

Lemma cached_flag_is_valid :
  @flag_needs_update offline_world (files cached) (bmp_path_of "norway") = false.
Proof.
  unfold flag_needs_update, read_file.
  change (@reachable offline_world (bmp_path_of "norway")) with true. cbv iota.
  change (@locate offline_world (bmp_path_of "norway"))
    with (locate_from home (bmp_path_of "norway")).
  unfold cached. cbn [files].
  rewrite lookup_singleton_eq. cbn [open_image].
  unfold black_flag. rewrite non_background_uniform; [reflexivity | | | ];
    unfold screen_width, screen_height, background_color; (lia || discriminate).
Qed.

Lemma writable_norway :
  @writable offline_world (json_path_of "norway") = true.
Proof. reflexivity. Qed.

Lemma metadata_written_when_flag_cached_witness :
  exists f,
    @extract offline_world norway = Some f /\
    @flag_needs_update offline_world (files cached) (bmp_path_of (country_id f)) = false /\
    @writable offline_world (json_path_of (country_id f)) = true /\
    fst (@process_country offline_world norway [] cached) = Some ["norway.json"].
Proof.
  eexists. split; [reflexivity|]. split; [exact cached_flag_is_valid|].
  split; [exact writable_norway|].
  rewrite (proj1 (@metadata_written_when_flag_cached offline_world norway [] cached _
                    eq_refl cached_flag_is_valid writable_norway)).
  reflexivity.
Defined.

(** C10 as stated fails: the cache check does not only decide about the
    flag.  Without network, Norway gets its metadata file and its index
    entry when its flag is cached, and neither when it is not. *)
Lemma failed_download_skips_metadata :
  @flag_needs_update offline_world (files cached) (bmp_path_of "norway") = false /\
  fst (@process_country offline_world norway [] cached) = Some ["norway.json"] /\
  is_Some (files (snd (@process_country offline_world norway [] cached))
             !! @locate offline_world (json_path_of "norway")) /\
  @flag_needs_update offline_world (files nowhere) (bmp_path_of "norway") = true /\
  fst (@process_country offline_world norway [] nowhere) = None /\
  files (snd (@process_country offline_world norway [] nowhere))
    !! @locate offline_world (json_path_of "norway") = None.
Proof.
  split; [exact cached_flag_is_valid|].
  assert (Hrun : exists doc,
            @process_country offline_world norway [] cached =
              (Some ["norway.json"],
               {| files := <[@locate offline_world (json_path_of "norway") := JsonFile doc]>
                             (files cached);
                  requests := [] |})).
  { rewrite process_country_unfold.
    set (r := @extract offline_world norway). vm_compute in r. subst r.
    cbv zeta. cbn [country_id flag_url].
    rewrite cached_flag_is_valid, writable_norway. eexists. reflexivity. }
  destruct Hrun as [doc ->]. cbn [fst snd files].
  split; [reflexivity|]. split; [rewrite lookup_insert_eq; eexists; reflexivity|].
  vm_compute. repeat split.
Qed.


(** A country that fails with an empty list of capitals is skipped: the
    next one is fetched and indexed. *)
Example failing_country_is_skipped :
  let w' := @fetch_and_save_flags online_world (Some (JArr [atlantis; norway])) nowhere in
  files w' !! @locate online_world index_path = Some (JsonFile (JArr [JStr "norway.json"])) /\
  requests w' = [JStr "https://flagcdn.com/no.svg"] /\
  files w' !! @locate online_world (json_path_of "atlantis") = None /\
  exists canvas,
    files w' !! @locate online_world (bmp_path_of "norway") = Some (ImageFile canvas) /\
    width canvas = 800 /\ height canvas = 480.
Proof. vm_compute. repeat split. eexists. repeat split. Qed.

(** So is a country whose name has a slash in it: its flag is requested,
    but neither BMP nor metadata can be written where no directory is. *)
Example unwritable_country_is_skipped :
  let w' := @fetch_and_save_flags online_world (Some (JArr [slashland; norway])) nowhere in
  files w' !! @locate online_world index_path = Some (JsonFile (JArr [JStr "norway.json"])) /\
  requests w' = [JStr "https://flagcdn.com/ab.svg"; JStr "https://flagcdn.com/no.svg"] /\
  files w' !! @locate online_world (bmp_path_of "a/b") = None /\
  files w' !! @locate online_world (json_path_of "a/b") = None.
Proof. vm_compute. repeat split. Qed.

(** Two spellings of one file: the metadata of a country called
    [./index] is written to the index file and replaced by the index. *)
Example index_alias_is_overwritten :
  let country := JObj [("name", JObj [("common", JStr "./index")]);
                       ("flags", JObj [("svg", JStr "https://flagcdn.com/xx.svg")])] in
  let w' := @fetch_and_save_flags online_world (Some (JArr [country])) cached in
  @locate online_world (json_path_of "./index") = @locate online_world index_path /\
  files w' !! @locate online_world (json_path_of "./index") =
    Some (JsonFile (JArr [JStr "./index.json"])).
Proof. vm_compute. repeat split. Qed.

(** A downloaded image of 2x1 pixels ends up in the middle of the
    canvas. *)
Example dot_is_centered :
  exists canvas,
    @render_flag online_world dot = Some canvas /\
    getpixel canvas 399 239 = [0; 0; 0] /\
    getpixel canvas 400 239 = [0; 0; 0] /\
    getpixel canvas 398 239 = [255; 255; 255] /\
    getpixel canvas 401 239 = [255; 255; 255] /\
    getpixel canvas 399 238 = [255; 255; 255] /\
    getpixel canvas 399 240 = [255; 255; 255].
Proof. eexists. split; [reflexivity|]. repeat split. Qed.

Lemma country_id_from_common_name_witness :
  exists f name s,
    @extract online_world norway = Some f /\
    dict_get norway "name" (JObj []) = Some name /\
    country_id f = replace_spaces (@str_lower online_world s).
Proof.
  assert (Hf : exists f, @extract online_world norway = Some f) by (eexists; reflexivity).
  destruct Hf as [f Hf].
  destruct (@country_id_from_common_name online_world norway f Hf)
    as (name & s & Hname & _ & _ & Hid & _).
  exists f, name, s. split; [exact Hf|]. split; [exact Hname | exact Hid].
Defined.

Lemma failed_country_writes_no_metadata_witness :
  exists w',
    @process_country online_world slashland [] nowhere = (None, w') /\
    files w' !! @locate online_world (json_path_of "a/b") =
      files nowhere !! @locate online_world (json_path_of "a/b").
Proof.
  assert (Hrun : @process_country online_world slashland [] nowhere =
                   (None, {| files := ∅; requests := [JStr "https://flagcdn.com/ab.svg"] |}))
    by (vm_compute; reflexivity).
  eexists. split; [exact Hrun|].
  exact (proj1 (@failed_country_writes_no_metadata online_world slashland [] nowhere _ Hrun)
               "a/b").
Defined.

Lemma processed_country_is_cached_witness :
  exists f,
    @extract online_world norway = Some f /\
    fst (@process_country online_world norway [] nowhere) = Some ["norway.json"] /\
    files (snd (@process_country online_world norway [] nowhere))
      !! @locate online_world (json_path_of (country_id f)) = Some (JsonFile (metadata f)).
Proof.
  assert (Hfst : fst (@process_country online_world norway [] nowhere) = Some ["norway.json"])
    by (vm_compute; reflexivity).
  assert (Hrun : @process_country online_world norway [] nowhere =
                   (Some ["norway.json"], snd (@process_country online_world norway [] nowhere)))
    by (rewrite <- Hfst; apply surjective_pairing).
  eexists. split; [reflexivity|]. split; [exact Hfst|].
  exact (proj1 (proj2 (@processed_country_is_cached online_world norway [] _ nowhere _ _
                         eq_refl Hrun))).
Defined.


Lemma cached_run_is_offline_witness :
  Forall (fun country => failure_message country <> None) [atlantis; norway] /\
  (forall country f, In country [atlantis; norway] ->
     @extract offline_world country = Some f ->
     @flag_needs_update offline_world (files cached) (bmp_path_of (country_id f)) = false) /\
  requests (@fetch_and_save_flags offline_world (Some (JArr [atlantis; norway])) cached) =
    requests cached.
Proof.
  assert (Hmsg : Forall (fun country => failure_message country <> None) [atlantis; norway])
    by (repeat constructor; discriminate).
  assert (Hvalid : forall country f, In country [atlantis; norway] ->
            @extract offline_world country = Some f ->
            @flag_needs_update offline_world (files cached) (bmp_path_of (country_id f)) =
              false).
  { intros country f [<- | [<- | []]] Hf; [discriminate Hf|].
    injection Hf as <-. exact cached_flag_is_valid. }
  split; [exact Hmsg|]. split; [exact Hvalid|].
  exact (proj1 (@cached_run_is_offline offline_world [atlantis; norway] cached Hmsg Hvalid)).
Defined.

End fetch_flags_spec.
